(** * ispconfig-traefik-dnschallenge: the DNS-01 workflow of [main.go]

    A shallow embedding of [main.go] and the properties of its
    zone-resolution and record-lifecycle workflow.

    The program talks to an ISPConfig remote API over HTTP.  Everything
    outside the process (the backend, the clock, the file system, the
    environment and the command line) is a field of [World]; every Go
    function becomes a computation in the monad [M], which threads the
    world, records each request that is sent and each log entry that is
    written, and can stop early with a run-time panic or [os.Exit]. *)

From Stdlib Require Import ZArith String Ascii List Bool Lia DecimalString.
From stdpp Require Import base option list strings gmap.

Open Scope Z_scope.

(** ** Strings *)

(** The double-quote character, the cutset of [strings.Trim] in [login]. *)
Definition dquote : ascii := ascii_of_nat 34.

(** [strconv.Itoa] / the [%d] verb of [fmt]. *)
Definition itoa (n : Z) : string := NilZero.string_of_int (Z.to_int n).

(** [strings.Split(s, sep)] for a one-byte separator: the substrings
    between the separators, always at least one. *)
Fixpoint Split (s : string) (sep : ascii) : list string :=
  match s with
  | EmptyString => [EmptyString]
  | String c s' =>
      if Ascii.eqb c sep then EmptyString :: Split s' sep
      else match Split s' sep with
           | p :: ps => String c p :: ps
           | [] => [String c EmptyString]
           end
  end.

(** [strings.Join(parts, sep)]. *)
Fixpoint Join (parts : list string) (sep : string) : string :=
  match parts with
  | [] => EmptyString
  | [p] => p
  | p :: ps => p +:+ sep +:+ Join ps sep
  end.

Fixpoint mem_ascii (c : ascii) (cutset : string) : bool :=
  match cutset with
  | EmptyString => false
  | String d r => Ascii.eqb c d || mem_ascii c r
  end.

(** [strings.TrimLeft], [strings.TrimRight] and [strings.Trim] for a
    cutset of one-byte characters. *)
Fixpoint TrimLeft (s cutset : string) : string :=
  match s with
  | EmptyString => EmptyString
  | String c s' => if mem_ascii c cutset then TrimLeft s' cutset else s
  end.

Fixpoint TrimRight (s cutset : string) : string :=
  match s with
  | EmptyString => EmptyString
  | String c s' =>
      match TrimRight s' cutset with
      | EmptyString => if mem_ascii c cutset then EmptyString else String c EmptyString
      | r => String c r
      end
  end.

Definition Trim (s cutset : string) : string := TrimRight (TrimLeft s cutset) cutset.

(** Go slice indexing [xs[i]] with a signed index: [None] is the
    run-time "index out of range" panic. *)
Definition index {A} (xs : list A) (i : Z) : option A :=
  if i <? 0 then None else xs !! Z.to_nat i.

Definition len {A} (xs : list A) : Z := Z.of_nat (length xs).

(** ** JSON documents and Go values *)

Set Warnings "-register-all".

(** A JSON text.  [JInt n] is a number written as an integer literal,
    [JFloat lit] any other number literal.  The same type stands for the
    values of Go's [interface{}] after decoding and for the values handed
    to [json.Marshal] (a Go map is written with its keys sorted, as
    [Marshal] emits them). *)
Inductive json : Type :=
| JNull
| JBool (b : bool)
| JInt (n : Z)
| JFloat (lit : string)
| JString (s : string)
| JArray (elems : list json)
| JObject (members : list (string * json)).

(** ** Errors *)

Inductive error : Type :=
| TransportError (msg : string)    (* returned by http.Post *)
| SyntaxError                      (* json: the body is not a JSON text *)
| UnmarshalTypeError               (* json: a value does not fit its Go type *)
| MkdirError (msg : string)        (* returned by os.MkdirAll *)
| Errorf (msg : string).           (* fmt.Errorf and errors.New *)

Definition Error (e : error) : string :=
  match e with
  | TransportError msg => msg
  | SyntaxError => "invalid character looking for beginning of value"
  | UnmarshalTypeError => "json: cannot unmarshal value into Go value"
  | MkdirError msg => msg
  | Errorf msg => msg
  end.

#[global] Instance error_eq_dec : EqDecision error.
Proof. solve_decision. Defined.

(** Run-time panics. *)
Inductive panic : Type :=
| IndexOutOfRange (i n : Z)        (* index out of range [i] with length n *)
| NilDereference                   (* nil pointer dereference *)
| MustFailed (e : error).          (* zap.Must on a failed Build *)

(** ** encoding/json: decoding a body into the program's Go types

    [Decoder.Decode] reads the first JSON text of the body.  A body is
    [None] when it does not start with a well-formed JSON text (an empty
    body included).  A [null] leaves a string, a number or a struct as it
    is, a value of the wrong kind is an [UnmarshalTypeError], and object
    members that match no field are skipped.  A member that comes again is
    decoded into what the earlier one left: a string or a number is
    overridden, a struct keeps the fields the later object does not name,
    and a slice is decoded element by element into the elements it
    holds. *)

Inductive decoded (A : Type) : Type :=
| Decoded (a : A)
| DecodeError (e : error).
Arguments Decoded {A} a.
Arguments DecodeError {A} e.

Definition decoded_bind {A B} (d : decoded A) (k : A -> decoded B) : decoded B :=
  match d with
  | Decoded a => k a
  | DecodeError e => DecodeError e
  end.

(** Struct fields are matched to member names without regard to case:
    [foldName] upper-cases ASCII letters and sends the two non-ASCII
    characters that case-fold to ASCII letters, U+017F (bytes C5 BF) and
    U+212A (bytes E2 84 AA), to [S] and [K]. *)
Definition upper (c : ascii) : ascii :=
  let n := nat_of_ascii c in
  if ((97 <=? n) && (n <=? 122))%nat then ascii_of_nat (n - 32) else c.

Fixpoint foldName (s : string) : string :=
  match s with
  | EmptyString => EmptyString
  | String c r =>
      match nat_of_ascii c, r with
      | 197%nat, String d r' =>
          if (nat_of_ascii d =? 191)%nat then String "S" (foldName r')
          else String c (foldName r)
      | 226%nat, String d (String e r') =>
          if ((nat_of_ascii d =? 132) && (nat_of_ascii e =? 170))%nat
          then String "K" (foldName r')
          else String c (foldName r)
      | _, _ => String (upper c) (foldName r)
      end
  end.

Definition field_is (member field : string) : bool :=
  String.eqb (foldName member) (foldName field).

(** A Go [string] field. *)
Definition decode_string (old : string) (j : json) : decoded string :=
  match j with
  | JNull => Decoded old
  | JString s => Decoded s
  | _ => DecodeError UnmarshalTypeError
  end.

(** A Go [int] field (64 bits): only an integer literal in range fits. *)
Definition decode_int (old : Z) (j : json) : decoded Z :=
  match j with
  | JNull => Decoded old
  | JInt n =>
      if (- 2 ^ 63 <=? n) && (n <? 2 ^ 63) then Decoded n
      else DecodeError UnmarshalTypeError
  | _ => DecodeError UnmarshalTypeError
  end.

(** Decoding an object: the members are visited in document order. *)
Fixpoint decode_members {A} (field : A -> string -> json -> decoded A)
    (acc : A) (members : list (string * json)) : decoded A :=
  match members with
  | [] => Decoded acc
  | (k, v) :: rest =>
      decoded_bind (field acc k v) (fun acc' => decode_members field acc' rest)
  end.

Definition decode_struct {A} (field : A -> string -> json -> decoded A)
    (old : A) (j : json) : decoded A :=
  match j with
  | JNull => Decoded old
  | JObject members => decode_members field old members
  | _ => DecodeError UnmarshalTypeError
  end.

(** A Go slice as a decoding target: the elements up to its length and,
    behind them, what its backing array holds.  A JSON array is decoded
    element by element into the backing array: element [i] of the document
    into the value that an earlier decoding left at index [i], or into a zero
    value where there is none; the slice is then cut to the number of
    elements of the document, and what lies behind stays in the backing
    array. *)
Fixpoint decode_elems {A} (elem : A -> json -> decoded A) (zero : A)
    (backing : list A) (js : list json) : decoded (list A * list A) :=
  match js with
  | [] => Decoded ([], backing)
  | j :: rest =>
      decoded_bind (elem (hd zero backing) j) (fun a =>
      decoded_bind (decode_elems elem zero (tl backing) rest) (fun r =>
      Decoded (a :: r.1, r.2)))
  end.

(** A Go slice field holding [old], with [spare] behind its length: [null]
    gives the nil slice and the empty array a new empty slice, either of
    which lets go of the backing array. *)
Definition decode_slice {A} (elem : A -> json -> decoded A) (zero : A)
    (old spare : list A) (j : json) : decoded (list A * list A) :=
  match j with
  | JNull => Decoded ([], [])
  | JArray [] => Decoded ([], [])
  | JArray js => decode_elems elem zero (old ++ spare) js
  | _ => DecodeError UnmarshalTypeError
  end.

Definition Decode {A} (target : json -> decoded A) (body : option json) : decoded A :=
  match body with
  | None => DecodeError SyntaxError
  | Some j => target j
  end.

(** [type loginResponse struct] *)
Record loginResponse : Type := {
  lr_Code : string;       (* `json:"code"` *)
  lr_Response : string    (* `json:"response"` *)
}.

Definition loginResponse_zero : loginResponse :=
  {| lr_Code := ""; lr_Response := "" |}.

Definition loginResponse_field (v : loginResponse) (k : string) (j : json)
    : decoded loginResponse :=
  if field_is k "code" then
    decoded_bind (decode_string (lr_Code v) j)
      (fun s => Decoded {| lr_Code := s; lr_Response := lr_Response v |})
  else if field_is k "response" then
    decoded_bind (decode_string (lr_Response v) j)
      (fun s => Decoded {| lr_Code := lr_Code v; lr_Response := s |})
  else Decoded v.

(** [type zoneInfoResponse struct] *)
Record zoneInfoResponse : Type := {
  ID : string;            (* `json:"id"` *)
  ServerID : string;      (* `json:"server_id"` *)
  SysUserID : string;     (* `json:"sys_userid"` *)
  ClientId : Z
}.

Definition zoneInfoResponse_zero : zoneInfoResponse :=
  {| ID := ""; ServerID := ""; SysUserID := ""; ClientId := 0 |}.

Definition zoneInfoResponse_field (v : zoneInfoResponse) (k : string) (j : json)
    : decoded zoneInfoResponse :=
  if field_is k "id" then
    decoded_bind (decode_string (ID v) j) (fun s =>
      Decoded {| ID := s; ServerID := ServerID v; SysUserID := SysUserID v; ClientId := ClientId v |})
  else if field_is k "server_id" then
    decoded_bind (decode_string (ServerID v) j) (fun s =>
      Decoded {| ID := ID v; ServerID := s; SysUserID := SysUserID v; ClientId := ClientId v |})
  else if field_is k "sys_userid" then
    decoded_bind (decode_string (SysUserID v) j) (fun s =>
      Decoded {| ID := ID v; ServerID := ServerID v; SysUserID := s; ClientId := ClientId v |})
  else if field_is k "ClientId" then
    decoded_bind (decode_int (ClientId v) j) (fun n =>
      Decoded {| ID := ID v; ServerID := ServerID v; SysUserID := SysUserID v; ClientId := n |})
  else Decoded v.

(** [type zoneApiResponse struct]; [za_spare] is what the backing array of
    [Response] holds behind the length of the slice. *)
Record zoneApiResponse : Type := {
  za_Code : string;                     (* `json:"code"` *)
  za_Message : string;                  (* `json:"message"` *)
  za_Response : list zoneInfoResponse;  (* `json:"response"` *)
  za_spare : list zoneInfoResponse
}.

Definition zoneApiResponse_zero : zoneApiResponse :=
  {| za_Code := ""; za_Message := ""; za_Response := []; za_spare := [] |}.

Definition zoneApiResponse_field (v : zoneApiResponse) (k : string) (j : json)
    : decoded zoneApiResponse :=
  if field_is k "code" then
    decoded_bind (decode_string (za_Code v) j) (fun s =>
      Decoded {| za_Code := s; za_Message := za_Message v;
                 za_Response := za_Response v; za_spare := za_spare v |})
  else if field_is k "message" then
    decoded_bind (decode_string (za_Message v) j) (fun s =>
      Decoded {| za_Code := za_Code v; za_Message := s;
                 za_Response := za_Response v; za_spare := za_spare v |})
  else if field_is k "response" then
    decoded_bind
      (decode_slice (decode_struct zoneInfoResponse_field) zoneInfoResponse_zero
         (za_Response v) (za_spare v) j)
      (fun r => Decoded {| za_Code := za_Code v; za_Message := za_Message v;
                           za_Response := r.1; za_spare := r.2 |})
  else Decoded v.

(** The anonymous [struct { Response int `json:"response"` }] of
    [getZoneInfo], as its one field. *)
Definition clientIDResponse_field (v : Z) (k : string) (j : json) : decoded Z :=
  if field_is k "response" then decode_int v j else Decoded v.

(** A [map[string]interface{}] target.  Decoding into a map that already
    has entries keeps them and adds (or overrides with) the members of the
    document; a top-level [null] sets the map to nil, which reads as the
    empty map. *)
Definition decode_map (m : gmap string json) (j : json) : decoded (gmap string json) :=
  match j with
  | JNull => Decoded ∅
  | JObject members => Decoded (foldl (fun acc kv => <[kv.1 := kv.2]> acc) m members)
  | _ => DecodeError UnmarshalTypeError
  end.

(** Reading a nested [map[string]interface{}]: the last member of that
    name, if any. *)
Fixpoint member (k : string) (members : list (string * json)) : option json :=
  match members with
  | [] => None
  | (k', v) :: rest =>
      match member k rest with
      | Some w => Some w
      | None => if String.eqb k' k then Some v else None
      end
  end.

(** The type assertion [x.(string)] on a map read: value and [ok]. *)
Definition assert_string (x : option json) : string * bool :=
  match x with
  | Some (JString s) => (s, true)
  | _ => (EmptyString, false)
  end.

(** [x.([]interface{})] *)
Definition assert_slice (x : option json) : list json * bool :=
  match x with
  | Some (JArray l) => (l, true)
  | _ => ([], false)
  end.

(** [x.(map[string]interface{})] *)
Definition assert_map (x : json) : list (string * json) * bool :=
  match x with
  | JObject ms => (ms, true)
  | _ => ([], false)
  end.

(** ** time *)

(** A [time.Time]: the Unix seconds and the civil fields in the local
    zone, as the runtime reports them. *)
Record Time : Type := {
  Unix : Z;
  Year : Z; Month : Z; Day : Z;
  Hour : Z; Minute : Z; Second : Z
}.

Fixpoint zeros (n : nat) : string :=
  match n with
  | O => EmptyString
  | S n' => String "0" (zeros n')
  end.

(** [appendInt] of package time: sign, then the digits padded with zeros
    to [width]. *)
Definition appendInt (x : Z) (width : nat) : string :=
  let digits := itoa (Z.abs x) in
  (if x <? 0 then "-" else "") +:+
  zeros (width - String.length digits) +:+ digits.

(** [Time.Format] for layouts written with the reference elements
    [2006], [01], [02], [15], [04], [05]; any other character is copied. *)
Fixpoint Format (t : Time) (layout : string) : string :=
  match layout with
  | String "2" (String "0" (String "0" (String "6" r))) => appendInt (Year t) 4 +:+ Format t r
  | String "0" (String "1" r) => appendInt (Month t) 2 +:+ Format t r
  | String "0" (String "2" r) => appendInt (Day t) 2 +:+ Format t r
  | String "1" (String "5" r) => appendInt (Hour t) 2 +:+ Format t r
  | String "0" (String "4" r) => appendInt (Minute t) 2 +:+ Format t r
  | String "0" (String "5" r) => appendInt (Second t) 2 +:+ Format t r
  | String c r => String c (Format t r)
  | EmptyString => EmptyString
  end.

(** ** net/http *)

(** One [http.Post(url, contentType, body)]; [payload] is the value that
    [json.Marshal] turned into the body (on maps and strings, booleans and
    integers, as here, [Marshal] does not fail). *)
Record Request : Type := {
  url : string;
  contentType : string;
  payload : json
}.

(** [http.Response]: [Body] is [None] when it holds no JSON text. *)
Record Response : Type := {
  StatusCode : Z;
  Status : string;
  Body : option json
}.

Definition StatusOK : Z := 200.

(** ** zap *)

Inductive Level : Type := InfoLevel | FatalLevel.

Inductive Field : Type :=
| FString (key val : string)     (* zap.String *)
| FInt (key : string) (val : Z)  (* zap.Int *)
| FError (e : error).            (* zap.Error *)

Record Entry : Type := {
  level : Level;
  message : string;
  fields : list Field
}.

(** The logger that [createLogger] builds: its output paths and the
    [pid] of its initial fields. *)
Record Logger : Type := { OutputPaths : list string; InitialPid : Z }.

(** ** The world and the monad *)

(** What the process sees of its surroundings, and what it has done so
    far.  The backend answers a request knowing the requests before it,
    so it may be any deterministic server, stateful or not. *)
Record World : Type := {
  Args : list string;                                 (* os.Args *)
  environ : gmap string string;                       (* the process environment *)
  backend : list Request -> Request -> Response + error;
  clock : nat -> Time;                                (* the n-th reading of time.Now *)
  MkdirAll : string -> option error;                  (* os.MkdirAll *)
  Build : list string -> option error;                (* zap.Config.Build on the output paths *)
  Getpid : Z;
  ticks : nat;                                        (* readings of the clock so far *)
  sent : list Request;                                (* requests posted so far, oldest first *)
  logged : list Entry;                                (* log entries written so far *)
  stdout : list string                                (* lines printed so far *)
}.

Definition with_ticks (w : World) (n : nat) : World :=
  {| Args := Args w; environ := environ w; backend := backend w; clock := clock w;
     MkdirAll := MkdirAll w; Build := Build w; Getpid := Getpid w;
     ticks := n; sent := sent w; logged := logged w; stdout := stdout w |}.

Definition with_sent (w : World) (l : list Request) : World :=
  {| Args := Args w; environ := environ w; backend := backend w; clock := clock w;
     MkdirAll := MkdirAll w; Build := Build w; Getpid := Getpid w;
     ticks := ticks w; sent := l; logged := logged w; stdout := stdout w |}.

Definition with_logged (w : World) (l : list Entry) : World :=
  {| Args := Args w; environ := environ w; backend := backend w; clock := clock w;
     MkdirAll := MkdirAll w; Build := Build w; Getpid := Getpid w;
     ticks := ticks w; sent := sent w; logged := l; stdout := stdout w |}.

Definition with_stdout (w : World) (l : list string) : World :=
  {| Args := Args w; environ := environ w; backend := backend w; clock := clock w;
     MkdirAll := MkdirAll w; Build := Build w; Getpid := Getpid w;
     ticks := ticks w; sent := sent w; logged := logged w; stdout := l |}.

(** How a computation ends: with a value, with a run-time panic, or with
    [os.Exit]. *)
Inductive outcome (A : Type) : Type :=
| Returns (a : A)
| Panics (p : panic)
| Exits (code : Z).
Arguments Returns {A} a.
Arguments Panics {A} p.
Arguments Exits {A} code.

Definition M (A : Type) : Type := World -> outcome A * World.

#[global] Instance M_ret : MRet M := fun A a w => (Returns a, w).

#[global] Instance M_bind : MBind M := fun A B k m w =>
  match m w with
  | (Returns a, w') => k a w'
  | (Panics p, w') => (Panics p, w')
  | (Exits c, w') => (Exits c, w')
  end.

Definition throw {A} (p : panic) : M A := fun w => (Panics p, w).

(** [os.Exit(code)] *)
Definition Exit {A} (code : Z) : M A := fun w => (Exits code, w).

(** [xs[i]], panicking when [i] is out of range. *)
Definition at_index {A} (xs : list A) (i : Z) : M A :=
  match index xs i with
  | Some x => mret x
  | None => throw (IndexOutOfRange i (len xs))
  end.

(** [os.Getenv] *)
Definition Getenv (w : World) (name : string) : string := default "" (environ w !! name).

(** The package-level variables, set from the environment at start-up. *)
Definition ISPCUser (w : World) : string := Getenv w "ISPC_User".
Definition ISPCPassword (w : World) : string := Getenv w "ISPC_Password".
Definition ISPCApi (w : World) : string := Getenv w "ISPC_Api".
Definition ISPCLogPath (w : World) : string := Getenv w "ISPC_Log_Path".

Definition get {A} (f : World -> A) : M A := fun w => (Returns (f w), w).

(** [time.Now()] *)
Definition Now : M Time := fun w => (Returns (clock w (ticks w)), with_ticks w (S (ticks w))).

(** [http.Post]: the request is recorded, the backend answers. *)
Definition Post (u ct : string) (body : json) : M (Response + error) := fun w =>
  let req := {| url := u; contentType := ct; payload := body |} in
  (Returns (backend w (sent w) req), with_sent w (sent w ++ [req])).

(** [fmt.Println] *)
Definition Println (line : string) : M unit := fun w =>
  (Returns tt, with_stdout w (stdout w ++ [line])).

Definition write_entry (e : Entry) : M unit := fun w =>
  (Returns tt, with_logged w (logged w ++ [e])).

(** The logger runs at [zap.InfoLevel]: [Debug] entries are dropped,
    [Fatal] writes its entry and exits with status 1. *)
Definition Debug (logger : Logger) (msg : string) (fs : list Field) : M unit := mret tt.

Definition Info (logger : Logger) (msg : string) (fs : list Field) : M unit :=
  write_entry {| level := InfoLevel; message := msg; fields := fs |}.

Definition Fatal {A} (logger : Logger) (msg : string) (fs : list Field) : M A :=
  write_entry {| level := FatalLevel; message := msg; fields := fs |} ≫= fun _ => Exit 1.

(** ** The program *)

Definition jsonType : string := "application/json".

(** [func login(logger *zap.Logger) (sessionId string, err error)] *)
Definition login (logger : Logger) : M (string * option error) :=
  Info logger "Getting Session ID" [];;
  user ← get ISPCUser;
  password ← get ISPCPassword;
  api ← get ISPCApi;
  let loginData := JObject [("client_login", JBool false);
                            ("password", JString password);
                            ("username", JString user)] in
  r ← Post (api +:+ "?login") jsonType loginData;
  match r with
  | inr err => mret (EmptyString, Some err)
  | inl resp =>
      match Decode (decode_struct loginResponse_field loginResponse_zero) (Body resp) with
      | DecodeError err => mret (EmptyString, Some err)
      | Decoded loginResp =>
          if negb (String.eqb (lr_Code loginResp) "ok")
          then mret (EmptyString, Some (Errorf "failed to retrieve session ID"))
          else
            let sessionID := Trim (lr_Response loginResp) (String dquote EmptyString) in
            Info logger "Retrieved Session ID" [];;
            Debug logger ("Session ID: " +:+ sessionID) [];;
            mret (sessionID, None)
      end
  end.

(** [func getZoneInfo(logger, sessionId, domain)], which returns a pointer
    to a [zoneInfoResponse] (nil is [None]) and an error. *)
Definition getZoneInfo (logger : Logger) (sessionId domain : string)
    : M (option zoneInfoResponse * option error) :=
  let parts := Split domain "." in
  if len parts <? 2 then mret (None, Some (Errorf "invalid domain format"))
  else
    sld ← at_index parts (len parts - 3);
    tld ← at_index parts (len parts - 2);
    let domainWithTLD := sld +:+ "." +:+ tld +:+ "." in
    let data := JObject [("primary_id", JObject [("origin", JString domainWithTLD)]);
                         ("session_id", JString sessionId)] in
    Debug logger "POSTing" [FString "endpoint" "?dns_zone_get"];;
    api ← get ISPCApi;
    r ← Post (api +:+ "?dns_zone_get") jsonType data;
    match r with
    | inr err => mret (None, Some err)
    | inl resp =>
        if negb (StatusCode resp =? StatusOK)
        then mret (None, Some (Errorf ("failed to retrieve zone information: " +:+ Status resp)))
        else
          match Decode (decode_struct zoneApiResponse_field zoneApiResponse_zero) (Body resp) with
          | DecodeError err => mret (None, Some err)
          | Decoded zoneInfoResp =>
              first ← at_index (za_Response zoneInfoResp) 0;
              let '(serverID, zoneID, sysUserID) :=
                if negb (String.eqb (ID first) "")
                then (ServerID first, ID first, SysUserID first)
                else (EmptyString, EmptyString, EmptyString) in
              let data := JObject [("session_id", JString sessionId);
                                   ("sys_userid", JString sysUserID)] in
              r ← Post (api +:+ "?client_get_id") jsonType data;
              match r with
              | inr err => mret (None, Some err)
              | inl resp =>
                  if negb (StatusCode resp =? StatusOK)
                  then mret (None, Some (Errorf ("failed to retrieve client ID: " +:+ Status resp)))
                  else
                    match Decode (decode_struct clientIDResponse_field 0) (Body resp) with
                    | DecodeError err => mret (None, Some err)
                    | Decoded clientIDResponse =>
                        mret (Some {| ID := zoneID; ServerID := serverID;
                                      SysUserID := sysUserID;
                                      ClientId := clientIDResponse |}, None)
                    end
              end
          end
    end.

(** [func addTxt(logger, sessionID, clientID, serverID, zone, fulldomain,
    txtValue) (recordId string, err error)] *)
Definition addTxt (logger : Logger) (sessionID : string) (clientID : Z)
    (serverID zone fulldomain txtValue : string) : M (string * option error) :=
  t1 ← Now;
  let curSerial := itoa (Unix t1) in
  t2 ← Now;
  let curStamp := Format t2 "2006-01-02 15:04:05" in
  let params := JObject [("active", JString "y");
                         ("aux", JString "0");
                         ("data", JString txtValue);
                         ("name", JString fulldomain);
                         ("serial", JString curSerial);
                         ("server_id", JString serverID);
                         ("stamp", JString curStamp);
                         ("ttl", JString "3600");
                         ("type", JString "txt");
                         ("zone", JString zone)] in
  let data := JObject [("client_id", JInt clientID);
                       ("params", params);
                       ("session_id", JString sessionID);
                       ("update_serial", JBool true)] in
  Debug logger "POSTing" [FString "endpoint" "?dns_txt_add"];;
  api ← get ISPCApi;
  r ← Post (api +:+ "?dns_txt_add") jsonType data;
  match r with
  | inr err => mret (EmptyString, Some err)
  | inl resp =>
      if negb (StatusCode resp =? StatusOK)
      then mret (EmptyString,
                 Some (Errorf ("HTTP request failed with status code: " +:+ itoa (StatusCode resp))))
      else
        match Decode (decode_map ∅) (Body resp) with
        | DecodeError err => mret (EmptyString, Some err)
        | Decoded response =>
            let '(recordID, ok) := assert_string (response !! "response") in
            if negb ok
            then mret (EmptyString, Some (Errorf "failed to extract record ID from response"))
            else mret (recordID, None)
        end
  end.

(** [func removeTxt(sessionID, fulldomain string) error].  The map
    [response] that holds the lookup reply is the one the delete reply is
    decoded into. *)
Definition removeTxt (sessionID fulldomain : string) : M (option error) :=
  let curData := JObject [("primary_id", JObject [("name", JString fulldomain);
                                                  ("type", JString "TXT")]);
                          ("session_id", JString sessionID)] in
  api ← get ISPCApi;
  r ← Post (api +:+ "?dns_txt_get") jsonType curData;
  match r with
  | inr err => mret (Some err)
  | inl resp =>
      if negb (StatusCode resp =? StatusOK)
      then mret (Some (Errorf ("HTTP request failed with status code: " +:+ itoa (StatusCode resp))))
      else
        match Decode (decode_map ∅) (Body resp) with
        | DecodeError err => mret (Some err)
        | Decoded response =>
            let '(code, ok) := assert_string (response !! "code") in
            if ok && String.eqb code "ok" then
              let '(records, ok) := assert_slice (response !! "response") in
              if negb ok || (len records =? 0)
              then mret (Some (Errorf "No TXT record found"))
              else
                first ← at_index records 0;
                let '(record, ok) := assert_map first in
                if negb ok then mret (Some (Errorf "Invalid record format"))
                else
                  let '(recordID, ok) := assert_string (member "id" record) in
                  if negb ok then mret (Some (Errorf "Failed to extract record ID"))
                  else
                    let curData := JObject [("primary_id", JString recordID);
                                            ("session_id", JString sessionID);
                                            ("update_serial", JBool true)] in
                    r ← Post (api +:+ "?dns_txt_delete") jsonType curData;
                    match r with
                    | inr err => mret (Some err)
                    | inl resp =>
                        if negb (StatusCode resp =? StatusOK)
                        then mret (Some (Errorf ("HTTP request failed with status code: "
                                                 +:+ itoa (StatusCode resp))))
                        else
                          match Decode (decode_map response) (Body resp) with
                          | DecodeError err => mret (Some err)
                          | Decoded response =>
                              let '(code, ok) := assert_string (response !! "code") in
                              if ok && String.eqb code "ok" then mret None
                              else mret (Some (Errorf "Failed to delete TXT record"))
                          end
                    end
            else mret (Some (Errorf "Failed to retrieve TXT record"))
        end
  end.

(** [func createLogger() *zap.Logger] *)
Definition createLogger : M Logger :=
  logPath ← get ISPCLogPath;
  let dirPath := logPath +:+ "/" in
  mkdirAll ← get MkdirAll;
  match mkdirAll dirPath with
  | Some err => Println ("Error creating directory: " +:+ Error err);; Exit 1
  | None =>
      t ← Now;
      let paths := ["stderr"; dirPath +:+ "/" +:+ Format t "2006-01-02" +:+ ".log"] in
      pid ← get Getpid;
      build ← get Build;
      match build paths with
      | Some err => throw (MustFailed err)
      | None => mret {| OutputPaths := paths; InitialPid := pid |}
      end
  end.

(** Reading through a pointer. *)
Definition deref {A} (p : option A) : M A :=
  match p with
  | Some a => mret a
  | None => throw NilDereference
  end.

(** [func main()] *)
Definition main : M unit :=
  logger ← createLogger;
  args ← get Args;
  (if len args <? 3
   then Fatal logger "Invalid number of arguments"
          [FInt "minimum" 2; FInt "provided" (len args)]
   else mret tt);;
  action ← at_index args 1;
  domain ← at_index args 2;
  (if String.eqb action "present" && (len args <? 4)
   then Fatal logger "Not enough arguments for 'present' action"
          [FInt "minimum" 3; FInt "provided" (len args)]
   else mret tt);;
  (if String.eqb domain "" then Fatal logger "Empty domain" [] else mret tt);;
  '(sessionId, err) ← login logger;
  match err with Some e => Fatal logger "Failed to login" [FError e] | None => mret tt end;;
  '(zoneInfo, err) ← getZoneInfo logger sessionId domain;
  match err with Some e => Fatal logger "Failed to get zone info" [FError e] | None => mret tt end;;
  Debug logger "zoneinfo" [];;
  if String.eqb action "present" then
    value ← at_index args 3;
    zi ← deref zoneInfo;
    '(recordId, err) ← addTxt logger sessionId (ClientId zi) (ServerID zi) (ID zi) domain value;
    match err with Some e => Fatal logger "Failed to add record" [FError e] | None => mret tt end;;
    Info logger "Created TXT record" [FString "id" recordId]
  else if String.eqb action "cleanup" then
    err ← removeTxt sessionId domain;
    match err with Some e => Fatal logger "Failed to remove record" [FError e] | None => mret tt end;;
    Info logger "Removed TXT record" []
  else mret tt.

(** The exit status of the process: 0 when [main] returns, 2 after a
    panic, the argument of [os.Exit] otherwise. *)
Definition exit_status (o : outcome unit) : Z :=
  match o with
  | Returns _ => 0
  | Panics _ => 2
  | Exits c => c
  end.

(** ** Vocabulary of the statements *)

(** The parts of the world that the program only reads. *)
Definition surroundings (w : World) :=
  (Args w, environ w, backend w, clock w, MkdirAll w, Build w, Getpid w).

(** The URL of an endpoint of the API. *)
Definition api (w : World) (endpoint : string) : string := ISPCApi w +:+ endpoint.

(** The endpoints, in the order a complete run reaches them. *)
Definition authentication : list string := ["?login"].
Definition zone_resolution : list string := ["?dns_zone_get"; "?client_get_id"].
Definition record_removal : list string := ["?dns_txt_get"; "?dns_txt_delete"].
Definition record_creation : list string := ["?dns_txt_add"].

(** The requests, as the backend receives them. *)
Definition login_request (w : World) : Request :=
  {| url := api w "?login"; contentType := jsonType;
     payload := JObject [("client_login", JBool false);
                         ("password", JString (ISPCPassword w));
                         ("username", JString (ISPCUser w))] |}.

Definition zone_request (w : World) (sessionId origin : string) : Request :=
  {| url := api w "?dns_zone_get"; contentType := jsonType;
     payload := JObject [("primary_id", JObject [("origin", JString origin)]);
                         ("session_id", JString sessionId)] |}.

Definition client_request (w : World) (sessionId sysUserID : string) : Request :=
  {| url := api w "?client_get_id"; contentType := jsonType;
     payload := JObject [("session_id", JString sessionId);
                         ("sys_userid", JString sysUserID)] |}.

Definition lookup_request (w : World) (sessionID fulldomain : string) : Request :=
  {| url := api w "?dns_txt_get"; contentType := jsonType;
     payload := JObject [("primary_id", JObject [("name", JString fulldomain);
                                                 ("type", JString "TXT")]);
                         ("session_id", JString sessionID)] |}.

Definition delete_request (w : World) (sessionID recordID : string) : Request :=
  {| url := api w "?dns_txt_delete"; contentType := jsonType;
     payload := JObject [("primary_id", JString recordID);
                         ("session_id", JString sessionID);
                         ("update_serial", JBool true)] |}.

(** Reading a request: a top-level member, and a member of [params]. *)
Definition top (req : Request) (k : string) : option json :=
  match payload req with
  | JObject ms => member k ms
  | _ => None
  end.

Definition param (req : Request) (k : string) : option json :=
  match top req "params" with
  | Some (JObject ps) => member k ps
  | _ => None
  end.

(** The zone-apex candidate in the words of the specification: the
    third-from-last label, a separator, the second-from-last label and a
    trailing separator. *)
Definition zone_apex (domain : string) : option string :=
  let labels := reverse (Split domain ".") in
  third ← labels !! 2%nat;
  second ← labels !! 1%nat;
  Some (third +:+ "." +:+ second +:+ ".").

(** The number of separators in a domain: one less than its labels. *)
Fixpoint count_sep (sep : ascii) (s : string) : nat :=
  match s with
  | EmptyString => O
  | String c r => if Ascii.eqb c sep then S (count_sep sep r) else count_sep sep r
  end.

(** Characters of a string, for the description of [Trim]. *)
Fixpoint all_in (s cutset : string) : bool :=
  match s with
  | EmptyString => true
  | String c r => mem_ascii c cutset && all_in r cutset
  end.

Definition first_char (s : string) : option ascii :=
  match s with
  | EmptyString => None
  | String c _ => Some c
  end.

Fixpoint last_char (s : string) : option ascii :=
  match s with
  | EmptyString => None
  | String c r => match last_char r with Some d => Some d | None => Some c end
  end.

Definition outside (cutset : string) (c : option ascii) : Prop :=
  ∀ x, c = Some x → mem_ascii x cutset = false.

(** [t] is [s] without the characters of [cutset] that surround it. *)
Definition stripped (s cutset t : string) : Prop :=
  ∃ pre post, s = pre +:+ t +:+ post
    ∧ all_in pre cutset = true ∧ all_in post cutset = true
    ∧ outside cutset (first_char t) ∧ outside cutset (last_char t).

Definition quote : string := String dquote EmptyString.

(** HTTP status classes. *)
Definition is_2xx (status : Z) : bool := (200 <=? status) && (status <? 300).

(** The errors of [removeTxt] by what they report: no usable record in
    the lookup reply, or a delete call that the backend turned down. *)
Definition NotFoundError (e : error) : Prop :=
  e = Errorf "No TXT record found" ∨ e = Errorf "Invalid record format"
  ∨ e = Errorf "Failed to extract record ID".

Definition DeleteRejected (e : error) : Prop :=
  e = Errorf "Failed to delete TXT record".

(** ** Scenarios

    Concrete worlds: a control panel at [https://panel.test/api] that
    answers each endpoint from a table. *)

Definition reply (status : Z) (text : string) (body : json) : Response + error :=
  inl {| StatusCode := status; Status := text; Body := Some body |}.

Definition ok (response : json) : Response + error :=
  reply 200 "200 OK" (JObject [("code", JString "ok"); ("message", JString "");
                               ("response", response)]).

Fixpoint route (table : list (string * (Response + error))) (u : string)
    : Response + error :=
  match table with
  | [] => inr (TransportError "connection refused")
  | (endpoint, r) :: rest =>
      if String.eqb u ("https://panel.test/api" +:+ endpoint) then r else route rest u
  end.

Definition noon : Time :=
  {| Unix := 1700000000; Year := 2023; Month := 11; Day := 14;
     Hour := 22; Minute := 13; Second := 20 |}.

Definition scenario (args : list string) (table : list (string * (Response + error)))
    : World :=
  {| Args := args;
     environ := {[ "ISPC_Api" := "https://panel.test/api"; "ISPC_User" := "acme";
                   "ISPC_Password" := "secret"; "ISPC_Log_Path" := "/var/log/ispc" ]};
     backend := fun _ req => route table (url req);
     clock := fun _ => noon;
     MkdirAll := fun _ => None;
     Build := fun _ => None;
     Getpid := 4242;
     ticks := 0; sent := []; logged := []; stdout := [] |}.

Definition the_logger : Logger :=
  {| OutputPaths := ["stderr"; "/var/log/ispc//2023-11-14.log"]; InitialPid := 4242 |}.

(** The zone [Z1] on server [S1], owned by user [U1], client 42. *)
Definition zone_Z1 : json :=
  JArray [JObject [("id", JString "Z1"); ("server_id", JString "S1");
                   ("sys_userid", JString "U1")]].

Definition healthy : list (string * (Response + error)) :=
  [("?login", ok (JString "SESSION"));
   ("?dns_zone_get", ok zone_Z1);
   ("?client_get_id", ok (JInt 42));
   ("?dns_txt_add", ok (JString "REC-9"));
   ("?dns_txt_get", ok (JArray [JObject [("id", JString "REC-9")]]));
   ("?dns_txt_delete", ok (JInt 1))].

(** A table with one endpoint answered differently. *)
Definition answering (endpoint : string) (r : Response + error)
    (table : list (string * (Response + error))) : list (string * (Response + error)) :=
  (endpoint, r) :: table.

(** The panel knows no zone for the domain: an empty result list. *)
Definition unknown_zone : World :=
  scenario ["dnschallenge"; "present"; "acme.test.example.org."; "abc123"]
    (answering "?dns_zone_get" (ok (JArray [])) healthy).

(** [cleanup acme.test.example.org.] against the healthy panel. *)
Definition cleanup_run : World :=
  scenario ["dnschallenge"; "cleanup"; "acme.test.example.org."] healthy.

(** [present acme.test.example.org. abc123] against the healthy panel. *)
Definition present_run : World :=
  scenario ["dnschallenge"; "present"; "acme.test.example.org."; "abc123"] healthy.

(** An action that is neither [present] nor [cleanup]. *)
Definition renew_run : World :=
  scenario ["dnschallenge"; "renew"; "acme.test.example.org."] healthy.

(** The login endpoint answers with status 500 and a body that says [ok]. *)
Definition login_500 : World :=
  scenario ["dnschallenge"; "cleanup"; "acme.test.example.org."]
    (answering "?login"
       (reply 500 "500 Internal Server Error"
          (JObject [("code", JString "ok"); ("response", JString "SESSION")]))
       healthy).

(** The session ID arrives wrapped in quotes. *)
Definition quoted_session : World :=
  scenario ["dnschallenge"; "cleanup"; "acme.test.example.org."]
    (answering "?login" (ok (JString (quote +:+ "SESSION" +:+ quote))) healthy).

(** The add call answered with [201 Created] and a record ID. *)
Definition created_201 : World :=
  scenario ["dnschallenge"; "present"; "acme.test.example.org."; "abc123"]
    (answering "?dns_txt_add"
       (reply 201 "201 Created"
          (JObject [("code", JString "ok"); ("response", JString "REC-9")]))
       healthy).

(** The add call answered with status 200 and an empty string. *)
Definition empty_record_id : World :=
  scenario ["dnschallenge"; "present"; "acme.test.example.org."; "abc123"]
    (answering "?dns_txt_add" (ok (JString "")) healthy).

(** The panel holds no TXT record of that name. *)
Definition no_record : World :=
  scenario ["dnschallenge"; "cleanup"; "acme.test.example.org."]
    (answering "?dns_txt_get" (ok (JArray [])) healthy).

(** The panel turns the delete call down. *)
Definition delete_refused : World :=
  scenario ["dnschallenge"; "cleanup"; "acme.test.example.org."]
    (answering "?dns_txt_delete"
       (reply 200 "200 OK"
          (JObject [("code", JString "remote_fault"); ("message", JString "denied");
                    ("response", JBool false)]))
       healthy).

(** The delete call answered with an object that has no [code] member. *)
Definition delete_without_code : World :=
  scenario ["dnschallenge"; "cleanup"; "acme.test.example.org."]
    (answering "?dns_txt_delete"
       (reply 200 "200 OK" (JObject [("message", JString "denied")]))
       healthy).

(** [present acme.test.example.org.] without a value. *)
Definition present_without_value : World :=
  scenario ["dnschallenge"; "present"; "acme.test.example.org."] healthy.

(** ** Vocabulary of the further properties *)

(** The command lines that [main] lets through to [login]: program name,
    action and a domain that is not empty, and a value when the action is
    [present]. *)
Definition valid_args (args : list string) : bool :=
  match args with
  | _ :: action :: domain :: rest =>
      negb (String.eqb action "present" && (len args <? 4))
      && negb (String.eqb domain "")
  | _ => false
  end.

(** The entry that [logger.Fatal(msg, zap.Error(e))] writes. *)
Definition fatal_entry (msg : string) (e : error) : Entry :=
  {| level := FatalLevel; message := msg; fields := [FError e] |}.

(** A world whose log directory cannot be created, and one whose logger
    cannot be built. *)
Definition without_log_directory (w : World) (e : error) : World :=
  {| Args := Args w; environ := environ w; backend := backend w; clock := clock w;
     MkdirAll := fun _ => Some e; Build := Build w; Getpid := Getpid w;
     ticks := ticks w; sent := sent w; logged := logged w; stdout := stdout w |}.

Definition without_log_file (w : World) (e : error) : World :=
  {| Args := Args w; environ := environ w; backend := backend w; clock := clock w;
     MkdirAll := MkdirAll w; Build := fun _ => Some e; Getpid := Getpid w;
     ticks := ticks w; sent := sent w; logged := logged w; stdout := stdout w |}.

(** The zone lookup answered with an entry whose [id] is empty. *)
Definition blank_zone : World :=
  scenario ["dnschallenge"; "present"; "acme.test.example.org."; "abc123"]
    (answering "?dns_zone_get"
       (ok (JArray [JObject [("id", JString ""); ("server_id", JString "S1");
                             ("sys_userid", JString "U1")]]))
       healthy).

(** Two zones in the answer of the zone lookup. *)
Definition two_zones : World :=
  scenario ["dnschallenge"; "present"; "acme.test.example.org."; "abc123"]
    (answering "?dns_zone_get"
       (ok (JArray [JObject [("id", JString "Z1"); ("server_id", JString "S1");
                             ("sys_userid", JString "U1")];
                    JObject [("id", JString "Z2"); ("server_id", JString "S2");
                             ("sys_userid", JString "U2")]]))
       healthy).

(** The answer of the zone lookup has the member [response] twice: two
    zones, then one entry that names only an [id]. *)
Definition repeated_response : World :=
  scenario ["dnschallenge"; "present"; "acme.test.example.org."; "abc123"]
    (answering "?dns_zone_get"
       (reply 200 "200 OK"
          (JObject [("code", JString "ok");
                    ("response",
                     JArray [JObject [("id", JString "Z1"); ("server_id", JString "S1");
                                      ("sys_userid", JString "U1")];
                             JObject [("id", JString "Z9"); ("server_id", JString "S9");
                                      ("sys_userid", JString "U9")]]);
                    ("response", JArray [JObject [("id", JString "Z2")]])]))
       healthy).

(** The same, with a second [response] whose one entry names nothing. *)
Definition repeated_blank_response : World :=
  scenario ["dnschallenge"; "present"; "acme.test.example.org."; "abc123"]
    (answering "?dns_zone_get"
       (reply 200 "200 OK"
          (JObject [("code", JString "ok");
                    ("response",
                     JArray [JObject [("id", JString "Z1"); ("sys_userid", JString "U1")]]);
                    ("response", JArray [JObject []])]))
       healthy).

(** The account lookup answered with status 503. *)
Definition account_503 : World :=
  scenario ["dnschallenge"; "present"; "acme.test.example.org."; "abc123"]
    (answering "?client_get_id"
       (reply 503 "503 Service Unavailable" (JObject [("code", JString "ok")]))
       healthy).

(** The zone lookup answered with status 404. *)
Definition zone_404 : World :=
  scenario ["dnschallenge"; "present"; "acme.test.example.org."; "abc123"]
    (answering "?dns_zone_get" (reply 404 "404 Not Found" JNull) healthy).

(** The add call answered with status 500. *)
Definition add_500 : World :=
  scenario ["dnschallenge"; "present"; "acme.test.example.org."; "abc123"]
    (answering "?dns_txt_add" (reply 500 "500 Internal Server Error" JNull) healthy).

(** The TXT lookup turned down by the panel, and answered with status 502. *)
Definition lookup_refused : World :=
  scenario ["dnschallenge"; "cleanup"; "acme.test.example.org."]
    (answering "?dns_txt_get"
       (reply 200 "200 OK"
          (JObject [("code", JString "remote_fault"); ("message", JString "denied");
                    ("response", JBool false)]))
       healthy).

Definition lookup_502 : World :=
  scenario ["dnschallenge"; "cleanup"; "acme.test.example.org."]
    (answering "?dns_txt_get" (reply 502 "502 Bad Gateway" JNull) healthy).

(** The delete call answered with status 500, and with the body [null]. *)
Definition delete_500 : World :=
  scenario ["dnschallenge"; "cleanup"; "acme.test.example.org."]
    (answering "?dns_txt_delete" (reply 500 "500 Internal Server Error" JNull) healthy).

Definition delete_null : World :=
  scenario ["dnschallenge"; "cleanup"; "acme.test.example.org."]
    (answering "?dns_txt_delete" (reply 200 "200 OK" JNull) healthy).

(** Two records in the answer of the TXT lookup. *)
Definition two_records : World :=
  scenario ["dnschallenge"; "cleanup"; "acme.test.example.org."]
    (answering "?dns_txt_get"
       (ok (JArray [JObject [("id", JString "REC-9")]; JObject [("id", JString "REC-10")]]))
       healthy).

(** The login turned down by the panel; the [response] of such an answer
    is [false], which does not fit the string field of [loginResponse]. *)
Definition login_refused : World :=
  scenario ["dnschallenge"; "cleanup"; "acme.test.example.org."]
    (answering "?login"
       (reply 200 "200 OK"
          (JObject [("code", JString "login_failed"); ("message", JString "denied");
                    ("response", JBool false)]))
       healthy).

(** Command lines that do not pass. *)
Definition no_arguments : World := scenario ["dnschallenge"] healthy.

Definition empty_domain : World := scenario ["dnschallenge"; "cleanup"; ""] healthy.

(** * Properties *)

(** ** Strings *)

(** [Split] yields one part more than there are separators. *)
Lemma Split_length s sep : length (Split s sep) = S (count_sep sep s).
Proof.
  induction s as [|c s IH]; simpl; [done|].
  destruct (Ascii.eqb c sep); simpl; [by rewrite IH|].
  destruct (Split s sep) as [|p ps] eqn:E; simpl in *; lia.
Qed.

(** [Split] and [Join] are inverse on parts that hold no separator. *)
Lemma Split_no_sep p sep : count_sep sep p = O → Split p sep = [p].
Proof.
  induction p as [|c p IH]; simpl; [done|].
  destruct (Ascii.eqb c sep); [done|]. intros H. by rewrite IH.
Qed.

Lemma Split_app p sep rest :
  count_sep sep p = O → Split (p +:+ String sep rest) sep = p :: Split rest sep.
Proof.
  induction p as [|c p IH]; simpl.
  - by rewrite Ascii.eqb_refl.
  - destruct (Ascii.eqb c sep); [done|]. intros H. by rewrite IH.
Qed.

Lemma Split_Join parts sep :
  parts ≠ [] → Forall (fun p => count_sep sep p = O) parts →
  Split (Join parts (String sep EmptyString)) sep = parts.
Proof.
  induction parts as [|p ps IH]; [done|]. intros _ H.
  inversion H as [|? ? Hp Hps]; subst.
  destruct ps as [|q qs]; simpl.
  - by apply Split_no_sep.
  - change (Split (p +:+ String sep (Join (q :: qs) (String sep ""))) sep = p :: q :: qs).
    rewrite Split_app by done. f_equal. by apply IH.
Qed.

(** [Trim] removes a prefix and a suffix made of cutset characters, and
    what is left neither starts nor ends with one. *)
Lemma TrimLeft_spec s cutset :
  ∃ pre, s = pre +:+ TrimLeft s cutset ∧ all_in pre cutset = true
         ∧ outside cutset (first_char (TrimLeft s cutset)).
Proof.
  induction s as [|c s (pre & Hs & Hpre & Hout)]; simpl.
  - exists EmptyString. repeat split. intros x [=].
  - destruct (mem_ascii c cutset) eqn:E.
    + exists (String c pre). simpl. rewrite E, Hpre. split; [exact (f_equal (String c) Hs)|done].
    + exists EmptyString. repeat split. intros x [= <-]. done.
Qed.

Lemma TrimRight_spec s cutset :
  ∃ post, s = TrimRight s cutset +:+ post ∧ all_in post cutset = true
          ∧ outside cutset (last_char (TrimRight s cutset))
          ∧ (TrimRight s cutset ≠ EmptyString → first_char (TrimRight s cutset) = first_char s).
Proof.
  induction s as [|c s (post & Hs & Hpost & Hout & Hfst)]; simpl.
  - exists EmptyString. by split_and!.
  - destruct (TrimRight s cutset) as [|d r] eqn:E.
    + destruct (mem_ascii c cutset) eqn:Ec.
      * exists (String c post). simpl in *. rewrite Ec, Hpost.
        split_and!; try done. by subst.
      * exists post. simpl in *. split_and!; try done; [by subst|].
        by intros x [= <-].
    + exists post. simpl in *. split_and!; try done.
      * exact (f_equal (String c) Hs).
      * intros x Hx. apply Hout. destruct (last_char r); congruence.
Qed.

Lemma Trim_spec s cutset : stripped s cutset (Trim s cutset).
Proof.
  unfold Trim, stripped.
  destruct (TrimLeft_spec s cutset) as (pre & Hs & Hpre & Hout).
  destruct (TrimRight_spec (TrimLeft s cutset) cutset) as (post & Ht & Hpost & Hlast & Hfst).
  exists pre, post. split; [by rewrite <- Ht|]. repeat split; try done.
  destruct (TrimRight (TrimLeft s cutset) cutset) eqn:E; [intros x [=]|].
  rewrite Hfst; done.
Qed.

(** ** Running the monad *)

(** Unfolding the monad and its primitive operations. *)
Ltac run :=
  cbv [mbind M_bind mret M_ret Info Debug Fatal write_entry get Post Now throw
       Exit Println deref at_index].

(** The endpoints depend on the surroundings only. *)
Lemma api_frame w w' : surroundings w' = surroundings w → api w' = api w.
Proof. unfold surroundings, api, ISPCApi, Getenv. intros [= ? -> ? ? ? ? ?]. done. Qed.

Lemma append_inj_r a b c : a +:+ b = a +:+ c → b = c.
Proof. induction a; simpl; [done|]. intros H. injection H. auto. Qed.

(** Closing a trace goal: the new requests are the last zero, one or two. *)
Ltac fin :=
  rewrite <- ?app_assoc, ?app_nil_r; simpl;
  split_and!; try done;
  try (by apply prefix_nil);
  try (by eexists; reflexivity);
  try (by intros ? [=]);
  try (intros ? [= <-]; by eauto).

Ltac trace :=
  simpl;
  first [ solve [exists []; fin] | solve [eexists [_]; fin] | solve [eexists [_; _]; fin] ].

(** What each function sends, and that it leaves the surroundings as they
    are.  [login] always returns and sends the login request. *)
Lemma login_trace lg w :
  ∃ sid err w', login lg w = (Returns (sid, err), w')
    ∧ surroundings w' = surroundings w ∧ ticks w' = ticks w
    ∧ sent w' = sent w ++ [login_request w].
Proof.
  unfold login. run.
  repeat case_match; simplify_eq; eauto 10.
Qed.

(** [getZoneInfo] sends the zone lookup and then the account-ID lookup, or
    stops before; when it returns without error it has sent both and
    returns a zone record. *)
Lemma getZoneInfo_trace lg sid domain w :
  ∃ l, sent (getZoneInfo lg sid domain w).2 = sent w ++ l
    ∧ surroundings (getZoneInfo lg sid domain w).2 = surroundings w
    ∧ ticks (getZoneInfo lg sid domain w).2 = ticks w
    ∧ url <$> l `prefix_of` (api w <$> zone_resolution)
    ∧ (∀ zi, (getZoneInfo lg sid domain w).1 = Returns (zi, None) →
         url <$> l = api w <$> zone_resolution ∧ is_Some zi).
Proof.
  unfold getZoneInfo. run.
  repeat case_match; simplify_eq; trace.
Qed.

(** [removeTxt] sends the TXT lookup for the domain and then at most the
    delete call; when it returns without error it has sent both. *)
Lemma removeTxt_trace sid domain w :
  ∃ l, sent (removeTxt sid domain w).2 = sent w ++ lookup_request w sid domain :: l
    ∧ surroundings (removeTxt sid domain w).2 = surroundings w
    ∧ url <$> l `prefix_of` [api w "?dns_txt_delete"]
    ∧ ((removeTxt sid domain w).1 = Returns None → url <$> l = [api w "?dns_txt_delete"]).
Proof.
  unfold removeTxt. run.
  repeat case_match; simplify_eq; trace.
Qed.

(** [addTxt] always returns and sends one add request. *)
Lemma addTxt_trace lg sid cid srv zone fq val w :
  ∃ id err w' req, addTxt lg sid cid srv zone fq val w = (Returns (id, err), w')
    ∧ surroundings w' = surroundings w
    ∧ sent w' = sent w ++ [req] ∧ url req = api w "?dns_txt_add"
    ∧ param req "name" = Some (JString fq)
    ∧ param req "type" = Some (JString "txt")
    ∧ param req "data" = Some (JString val).
Proof.
  unfold addTxt. run.
  repeat case_match; simplify_eq; eexists _, _, _, _; by split_and!.
Qed.

(** [createLogger] sends nothing. *)
Lemma createLogger_trace w :
  sent (createLogger w).2 = sent w
  ∧ surroundings (createLogger w).2 = surroundings w.
Proof.
  unfold createLogger. run.
  repeat case_match; simplify_eq; done.
Qed.

Lemma len_cons {A} (x : A) l : len (x :: l) = 1 + len l.
Proof. unfold len. simpl length. lia. Qed.

Lemma len_nonneg {A} (l : list A) : 0 ≤ len l.
Proof. unfold len. lia. Qed.

Lemma eqb_false (a b : string) : a ≠ b → String.eqb a b = false.
Proof. intros H. by apply String.eqb_neq. Qed.

(** A request of a trace that follows a list of endpoints goes to one of
    them. *)
Lemma url_among w l es req :
  url <$> l `prefix_of` (api w <$> es) → req ∈ l → ∃ e, e ∈ es ∧ url req = api w e.
Proof.
  intros [k Hk] Hin.
  assert (url req ∈ api w <$> es) as Hurl.
  { rewrite Hk. apply elem_of_app. left. by apply list_elem_of_fmap_2. }
  apply list_elem_of_fmap in Hurl as (e & He & Hin'). eauto.
Qed.

(** A trace of authentication and zone resolution holds no request that
    creates or removes a record. *)
Lemma other_endpoints w l :
  url <$> l `prefix_of` (api w <$> authentication ++ zone_resolution) →
  ∀ req, req ∈ l → url req ∉ (api w <$> record_creation ++ record_removal).
Proof.
  intros [k Hk] req Hin Hbad.
  assert (url req ∈ (api w <$> authentication ++ zone_resolution)) as Hgood.
  { rewrite Hk. apply elem_of_app. left. by apply list_elem_of_fmap_2. }
  apply list_elem_of_fmap in Hgood as (e1 & He1 & H1).
  apply list_elem_of_fmap in Hbad as (e2 & He2 & H2).
  rewrite He1 in He2. apply append_inj_r in He2. subst e2.
  unfold authentication, zone_resolution, record_creation, record_removal in *.
  simpl in *. rewrite !elem_of_cons, !elem_of_nil in H1, H2.
  destruct H1 as [->|[->|[->|[]]]]; destruct H2 as [?|[?|[?|[]]]]; discriminate.
Qed.

(** From here on the functions that [main] calls are used through the
    lemmas above. *)
Arguments login : simpl never.
Arguments getZoneInfo : simpl never.
Arguments addTxt : simpl never.
Arguments removeTxt : simpl never.
Arguments createLogger : simpl never.

Ltac run_in H :=
  cbv [mbind M_bind mret M_ret Info Debug Fatal write_entry get Post Now throw
       Exit Println deref at_index] in H.

Lemma login_request_frame w w' :
  surroundings w' = surroundings w → login_request w' = login_request w.
Proof.
  intros Hf. unfold login_request, ISPCPassword, ISPCUser, Getenv.
  rewrite (api_frame _ _ Hf). injection Hf as _ -> _. done.
Qed.

Lemma validated (rest : list string) : ((1 + (1 + (1 + len rest)) <? 3) = false).
Proof. pose proof (len_nonneg rest). lia. Qed.

Lemma validated_present (value : string) (rest : list string) :
  ((1 + (1 + (1 + len (value :: rest))) <? 4) = false).
Proof. rewrite len_cons. pose proof (len_nonneg rest). lia. Qed.

(** The first steps of [main] on a command line [prog action domain ...]
    with a domain: the logger is built, the arguments pass, [login] runs. *)
Ltac enter_main w Hmain HArgs Hd :=
  let Hs0 := fresh "Hs0" in
  let Hf0 := fresh "Hf0" in
  destruct (main w) as [?o ?wf] eqn:Hmain;
  unfold main in Hmain; run_in Hmain;
  destruct (createLogger_trace w) as [Hs0 Hf0];
  destruct (createLogger w) as [[?lg|?p|?c] ?w1] eqn:?Hlog; simpl in Hs0, Hf0;
  [ replace (Args w1) with (Args w) in Hmain by (by injection Hf0);
    rewrite HArgs in Hmain; do 3 rewrite len_cons in Hmain;
    rewrite validated, ?validated_present in Hmain;
    simpl in Hmain;
    rewrite (eqb_false _ "") in Hmain by exact Hd
  | simplify_eq | simplify_eq ].

(** ** The cleanup path *)

(** C1 (as the code has it): on [cleanup] with a domain, the requests go
    out in the order login, zone lookup, account-ID lookup, TXT lookup,
    TXT delete, cut short at the first failure, and a run that returns
    normally has sent all five.  Zone resolution follows a successful
    login; [removeTxt], keyed by the domain name, follows zone resolution
    that returned without error, and nothing is sent after zone resolution
    that did not. *)
Theorem main_cleanup_resolves_zone w prog domain rest :
  Args w = prog :: "cleanup" :: domain :: rest → domain ≠ "" →
  (∃ l, sent (main w).2 = sent w ++ l
        ∧ url <$> l `prefix_of`
            (api w <$> authentication ++ zone_resolution ++ record_removal)
        ∧ ((main w).1 = Returns tt →
             url <$> l = api w <$> authentication ++ zone_resolution ++ record_removal))
  ∧ (∀ lg w1 sid w2,
       createLogger w = (Returns lg, w1) → login lg w1 = (Returns (sid, None), w2) →
       (∀ zi w3, getZoneInfo lg sid domain w2 = (Returns (zi, None), w3) →
          sent (main w).2 = sent (removeTxt sid domain w3).2
          ∧ ∃ k, sent (main w).2 = sent w3 ++ lookup_request w sid domain :: k)
       ∧ ((∀ zi, (getZoneInfo lg sid domain w2).1 ≠ Returns (zi, None)) →
          sent (main w).2 = sent (getZoneInfo lg sid domain w2).2)).
Proof.
  intros HArgs Hd.
  enter_main w Hmain HArgs Hd.
  2,3: split; [exists []; rewrite app_nil_r; split_and!; [done|apply prefix_nil|done]|done].
  simpl in Hmain.
  destruct (login_trace lg w1) as (sid & err & w2 & Hlogin & Hf1 & _ & Hs1).
  rewrite Hlogin, (login_request_frame _ _ Hf0), Hs0 in *.
  assert (api w2 = api w) as Hapi by (rewrite (api_frame _ _ Hf1); by apply api_frame).
  destruct (getZoneInfo_trace lg sid domain w2) as (l & Hs2 & Hf2 & _ & Hpre & Hfull).
  assert (api (getZoneInfo lg sid domain w2).2 = api w) as Hapi3
    by (rewrite (api_frame _ _ Hf2); done).
  rewrite Hapi, Hs1, <- app_assoc in *. clear Hf0 Hf1 Hf2.
  assert ((∃ l, sent wf = sent w ++ l
        ∧ url <$> l `prefix_of`
            (api w <$> authentication ++ zone_resolution ++ record_removal)
        ∧ (o = Returns tt →
             url <$> l = api w <$> authentication ++ zone_resolution ++ record_removal))
    ∧ (err = None →
       (∀ zi w3, getZoneInfo lg sid domain w2 = (Returns (zi, None), w3) →
          sent wf = sent (removeTxt sid domain w3).2
          ∧ ∃ k, sent wf = sent w3 ++ lookup_request w sid domain :: k)
       ∧ ((∀ zi, (getZoneInfo lg sid domain w2).1 ≠ Returns (zi, None)) →
          sent wf = sent (getZoneInfo lg sid domain w2).2))) as [Htrace Hsteps].
  { destruct err as [e|]; simpl in Hmain.
    { simplify_eq. split; [|done].
      exists [login_request w]. split_and!; [done|by eexists|done]. }
    destruct (getZoneInfo lg sid domain w2) as [[[zi [e|]]|p|c] w3] eqn:Hzone;
      simpl in *; simplify_eq.
    1,3,4: split; [exists (login_request w :: l); split_and!;
                     [done|apply prefix_cons; etrans; [exact Hpre|by eexists]|done]|];
           intros _; split; [intros ? ? ?; by simplify_eq|done].
    destruct (Hfull zi eq_refl) as [Hl _].
    destruct (removeTxt_trace sid domain w3) as (k & Hs3 & _ & Hpre3 & Hfull3).
    assert (lookup_request w3 sid domain = lookup_request w sid domain) as Hreq
      by (unfold lookup_request; by rewrite Hapi3).
    rewrite Hapi3, Hreq, Hs2 in *.
    assert (sent wf = sent (removeTxt sid domain w3).2
            ∧ (o = Returns tt → (removeTxt sid domain w3).1 = Returns None)) as [Hwf Ho].
    { destruct (removeTxt sid domain w3) as [[[e|]|p|c] w4]; simpl in *; by simplify_eq. }
    split.
    - exists (login_request w :: l ++ lookup_request w sid domain :: k).
      split_and!.
      + rewrite Hwf, Hs3, <- !app_assoc. done.
      + rewrite fmap_cons, fmap_app, fmap_cons, Hl. simpl.
        do 4 apply prefix_cons. done.
      + intros Hret. rewrite fmap_cons, fmap_app, fmap_cons, Hl, (Hfull3 (Ho Hret)). done.
    - intros _. split.
      + intros ? ? ?. simplify_eq. split; [done|].
        exists k. rewrite Hwf, Hs3, Hs2. done.
      + intros Hno. by destruct (Hno zi). }
  split; [done|].
  intros ? ? sid' w2' [= <- <-] Hq. rewrite Hlogin in Hq. injection Hq as -> -> ->.
  by apply Hsteps.
Qed.

(** C1, as stated, fails: the complete cleanup run against the healthy
    panel sends the zone lookup and the account-ID lookup between the login
    and the TXT lookup. *)
Lemma cleanup_run_resolves_zone :
  Args cleanup_run = ["dnschallenge"; "cleanup"; "acme.test.example.org."]
  ∧ (main cleanup_run).1 = Returns tt
  ∧ url <$> sent (main cleanup_run).2 =
      ["https://panel.test/api?login";
       "https://panel.test/api?dns_zone_get";
       "https://panel.test/api?client_get_id";
       "https://panel.test/api?dns_txt_get";
       "https://panel.test/api?dns_txt_delete"].
Proof. split_and!; by vm_compute. Qed.

Lemma main_cleanup_resolves_zone_witness :
  ∃ l, sent (main cleanup_run).2 = sent cleanup_run ++ l
       ∧ url <$> l `prefix_of`
           (api cleanup_run <$> authentication ++ zone_resolution ++ record_removal)
       ∧ ((main cleanup_run).1 = Returns tt →
            url <$> l = api cleanup_run <$> authentication ++ zone_resolution ++ record_removal).
Proof.
  apply (main_cleanup_resolves_zone cleanup_run "dnschallenge" "acme.test.example.org." []).
  - reflexivity.
  - discriminate.
Defined.

(** ** Authentication *)

(** What [login] returns, read off the answer of the backend.  The
    status code of the answer is not consulted. *)
Lemma login_result lg w :
  (login lg w).1 =
  Returns
    match backend w (sent w) (login_request w) with
    | inr err => (EmptyString, Some err)
    | inl resp =>
        match Decode (decode_struct loginResponse_field loginResponse_zero) (Body resp) with
        | DecodeError err => (EmptyString, Some err)
        | Decoded lr =>
            if String.eqb (lr_Code lr) "ok" then (Trim (lr_Response lr) quote, None)
            else (EmptyString, Some (Errorf "failed to retrieve session ID"))
        end
    end.
Proof.
  unfold login. run.
  unfold login_request, api, quote, ISPCApi, ISPCUser, ISPCPassword, Getenv. simpl.
  repeat case_match; simplify_eq; done.
Qed.

(** C7: [login] always returns; it returns without error exactly when
    the body of the answer decodes and its [code] is [ok]; the session ID
    is then the [response] field stripped of the double quotes around it,
    and in every other case the session ID is empty. *)
Theorem login_succeeds_iff_code_ok lg w :
  ∃ sid err, (login lg w).1 = Returns (sid, err)
    ∧ (err = None ↔
       ∃ resp lr, backend w (sent w) (login_request w) = inl resp
         ∧ Decode (decode_struct loginResponse_field loginResponse_zero) (Body resp)
           = Decoded lr
         ∧ lr_Code lr = "ok")
    ∧ (∀ resp lr, backend w (sent w) (login_request w) = inl resp →
         Decode (decode_struct loginResponse_field loginResponse_zero) (Body resp)
           = Decoded lr →
         lr_Code lr = "ok" →
         sid = Trim (lr_Response lr) quote ∧ stripped (lr_Response lr) quote sid)
    ∧ (err ≠ None → sid = "").
Proof.
  pose proof (login_result lg w) as Hres.
  destruct (backend w (sent w) (login_request w)) as [resp|e] eqn:Hreply.
  2:{ eexists _, _. split; [exact Hres|]. split; [|split].
      - split; [done|]. by intros (? & ? & ? & _).
      - by intros ? ? [=].
      - done. }
  destruct (Decode _ (Body resp)) as [lr|e] eqn:Hdec.
  2:{ eexists _, _. split; [exact Hres|]. split; [|split].
      - split; [done|]. intros (? & ? & ? & ? & _). simplify_eq; congruence.
      - intros ? ? ? ?. simplify_eq; congruence.
      - done. }
  destruct (String.eqb_spec (lr_Code lr) "ok") as [Hcode|Hcode].
  - eexists _, _. split; [exact Hres|]. split; [|split].
    + split; [eauto|done].
    + intros ? ? ? Hd' _. simplify_eq. rewrite Hdec in Hd'. simplify_eq.
      split; [done|]. apply Trim_spec.
    + done.
  - eexists _, _. split; [exact Hres|]. split; [|split].
    + split; [done|]. intros (? & ? & ? & ? & ?). simplify_eq; congruence.
    + intros ? ? ? ? ?. simplify_eq; congruence.
    + done.
Qed.

Lemma login_succeeds_iff_code_ok_witness :
  (login the_logger quoted_session).1 = Returns ("SESSION", None)
  ∧ stripped (quote +:+ "SESSION" +:+ quote) quote "SESSION".
Proof.
  pose (resp := {| StatusCode := 200; Status := "200 OK";
                   Body := Some (JObject [("code", JString "ok"); ("message", JString "");
                                          ("response", JString (quote +:+ "SESSION" +:+ quote))]) |}).
  pose (lr := {| lr_Code := "ok"; lr_Response := quote +:+ "SESSION" +:+ quote |}).
  assert (backend quoted_session (sent quoted_session) (login_request quoted_session)
          = inl resp) as Hreply by (vm_compute; reflexivity).
  assert (Decode (decode_struct loginResponse_field loginResponse_zero) (Body resp)
          = Decoded lr) as Hdec by (vm_compute; reflexivity).
  destruct (login_succeeds_iff_code_ok the_logger quoted_session)
    as (sid & err & Hret & Hiff & Hsid & _).
  destruct (Hsid resp lr Hreply Hdec eq_refl) as [Heq Hstrip].
  assert (sid = "SESSION") as -> by (rewrite Heq; vm_compute; reflexivity).
  assert (err = None) as -> by (apply Hiff; exists resp, lr; by split_and!).
  split; [exact Hret|exact Hstrip].
Defined.

(** C5 (the code departs from it): the login answered with status 500
    and a body whose code is [ok] is taken for a success. *)
Theorem login_accepts_status_500 :
  (∃ resp, backend login_500 [] (login_request login_500) = inl resp
           ∧ StatusCode resp = 500)
  ∧ (login the_logger login_500).1 = Returns ("SESSION", None).
Proof. split; [eexists; split|]; by vm_compute. Qed.

(** ** Zone resolution *)

(** Counting from the end of a slice. *)
Lemma index_from_last {A} (l : list A) (k : nat) :
  (k < length l)%nat → index l (len l - Z.of_nat (S k)) = reverse l !! k.
Proof.
  intros Hk. unfold index, len.
  destruct (Z.ltb_spec (Z.of_nat (length l) - Z.of_nat (S k)) 0) as [?|_]; [lia|].
  rewrite reverse_lookup by done. f_equal. lia.
Qed.

(** What [getZoneInfo] reads of a domain that has a zone-apex candidate. *)
Lemma zone_apex_labels domain apex :
  zone_apex domain = Some apex →
  ∃ sld tld,
    (len (Split domain ".") <? 2) = false
    ∧ index (Split domain ".") (len (Split domain ".") - 3) = Some sld
    ∧ index (Split domain ".") (len (Split domain ".") - 2) = Some tld
    ∧ apex = sld +:+ "." +:+ tld +:+ ".".
Proof.
  unfold zone_apex. cbn zeta.
  destruct (reverse (Split domain ".") !! 2%nat) as [sld|] eqn:H3; [|done].
  destruct (reverse (Split domain ".") !! 1%nat) as [tld|] eqn:H2; [|done].
  intros [= <-]. exists sld, tld.
  assert (2 < length (Split domain "."))%nat as Hlen.
  { apply lookup_lt_Some in H3. by rewrite length_reverse in H3. }
  split_and!; [unfold len; lia| | |done].
  - rewrite <- H3. apply (index_from_last _ 2). lia.
  - rewrite <- H2. apply (index_from_last _ 1). lia.
Qed.

(** Three labels are enough for a zone-apex candidate. *)
Lemma zone_apex_defined domain :
  3 ≤ len (Split domain ".") → is_Some (zone_apex domain).
Proof.
  unfold zone_apex, len. intros Hlen. cbn zeta.
  destruct (lookup_lt_is_Some_2 (reverse (Split domain ".")) 2) as [a ->];
    [rewrite length_reverse; lia|].
  destruct (lookup_lt_is_Some_2 (reverse (Split domain ".")) 1) as [b ->];
    [rewrite length_reverse; lia|].
  by eexists.
Qed.

(** C8: for a domain of at least three dot-separated labels the zone-apex
    candidate exists, and the first request of [getZoneInfo] is the zone
    lookup whose key [origin] is that candidate. *)
Theorem getZoneInfo_asks_for_apex lg sid domain w :
  3 ≤ len (Split domain ".") →
  ∃ apex, zone_apex domain = Some apex
    ∧ sent (getZoneInfo lg sid domain w).2 !! length (sent w)
      = Some (zone_request w sid apex).
Proof.
  intros Hlen. destruct (zone_apex_defined domain Hlen) as [apex Hapex].
  exists apex. split; [done|].
  destruct (zone_apex_labels domain apex Hapex) as (sld & tld & Hguard & Hsld & Htld & ->).
  unfold getZoneInfo. rewrite Hguard. run. rewrite Hsld, Htld.
  repeat case_match; simplify_eq; simpl;
    rewrite <- ?app_assoc; cbn [app]; by rewrite list_lookup_middle.
Qed.

Lemma getZoneInfo_asks_for_apex_witness :
  3 ≤ len (Split "foo.bar.example.com." ".")
  ∧ zone_apex "foo.bar.example.com." = Some "example.com."
  ∧ sent (getZoneInfo the_logger "SESSION" "foo.bar.example.com." present_run).2 !! 0%nat
    = Some (zone_request present_run "SESSION" "example.com.").
Proof.
  assert (3 ≤ len (Split "foo.bar.example.com." ".")) as Hlen by (by vm_compute).
  split; [exact Hlen|].
  destruct (getZoneInfo_asks_for_apex the_logger "SESSION" "foo.bar.example.com."
              present_run Hlen) as (apex & Hapex & Hsent).
  assert (apex = "example.com.") as -> by (vm_compute in Hapex; congruence).
  split; [exact Hapex|exact Hsent].
Defined.

(** A domain without a separator is turned down before any request. *)
Lemma getZoneInfo_no_separator lg sid domain w :
  count_sep "." domain = 0%nat →
  getZoneInfo lg sid domain w = (Returns (None, Some (Errorf "invalid domain format")), w).
Proof.
  intros Hsep. unfold getZoneInfo, len. by rewrite Split_length, Hsep.
Qed.

(** A domain with one separator passes the guard [len(parts) < 2] and
    then reads [parts[-1]]. *)
Lemma getZoneInfo_one_separator lg sid domain w :
  count_sep "." domain = 1%nat →
  getZoneInfo lg sid domain w = (Panics (IndexOutOfRange (-1) 2), w).
Proof.
  intros Hsep. unfold getZoneInfo, at_index, len. by rewrite Split_length, Hsep.
Qed.

(** X4: what holds of every domain with fewer than three labels: no
    request is sent; one label gives the error, two labels the panic. *)
Lemma getZoneInfo_short_domain lg sid domain w :
  len (Split domain ".") < 3 →
  (getZoneInfo lg sid domain w).2 = w
  ∧ (len (Split domain ".") = 1 →
       (getZoneInfo lg sid domain w).1
       = Returns (None, Some (Errorf "invalid domain format")))
  ∧ (len (Split domain ".") = 2 →
       (getZoneInfo lg sid domain w).1 = Panics (IndexOutOfRange (-1) 2)).
Proof.
  unfold len. rewrite Split_length. intros Hlen.
  destruct (count_sep "." domain) as [|[|n]] eqn:Hsep; [| |lia].
  - rewrite getZoneInfo_no_separator by done. split_and!; [done|done|intros; lia].
  - rewrite getZoneInfo_one_separator by done. split_and!; [done|intros; lia|done].
Qed.

(** C2 (the code departs from it): [example.com] has two labels, and
    [getZoneInfo] neither returns the invalid-format error nor sends a
    request: it panics on the index [-1]. *)
Theorem getZoneInfo_two_labels_panics lg sid w :
  len (Split "example.com" ".") = 2
  ∧ getZoneInfo lg sid "example.com" w = (Panics (IndexOutOfRange (-1) 2), w).
Proof. split; [done|]. by apply getZoneInfo_one_separator. Qed.

(** X3: the zone lookup answered with a first entry whose [id] is empty:
    the three identifiers stay empty, the account lookup is made with the
    empty user, and its answer is returned. *)
Lemma getZoneInfo_zone_not_found lg sid domain w apex resp za first others resp' cid :
  zone_apex domain = Some apex →
  backend w (sent w) (zone_request w sid apex) = inl resp →
  StatusCode resp = StatusOK →
  Decode (decode_struct zoneApiResponse_field zoneApiResponse_zero) (Body resp) = Decoded za →
  za_Response za = first :: others → ID first = "" →
  backend w (sent w ++ [zone_request w sid apex]) (client_request w sid "") = inl resp' →
  StatusCode resp' = StatusOK →
  Decode (decode_struct clientIDResponse_field 0) (Body resp') = Decoded cid →
  (getZoneInfo lg sid domain w).1
    = Returns (Some {| ID := ""; ServerID := ""; SysUserID := ""; ClientId := cid |}, None)
  ∧ sent (getZoneInfo lg sid domain w).2
    = sent w ++ [zone_request w sid apex; client_request w sid ""].
Proof.
  intros Hapex Hzone Hst Hza Hresp Hid Hclient Hst' Hcid.
  destruct (zone_apex_labels domain apex Hapex) as (sld & tld & Hguard & Hsld & Htld & ->).
  unfold getZoneInfo. rewrite Hguard. run. rewrite Hsld, Htld.
  unfold zone_request, client_request, api in *. simpl in *.
  rewrite Hzone, Hst. simpl. rewrite Hza, Hresp. simpl. rewrite Hid. simpl.
  rewrite Hclient, Hst'. simpl. rewrite Hcid. simpl. by rewrite <- app_assoc.
Qed.

(** C3 (the code departs from it): the zone lookup answered with code
    [ok] and an empty result list makes [getZoneInfo] panic on
    [Response[0]]; the account lookup is never made. *)
Theorem getZoneInfo_empty_result_panics :
  backend unknown_zone [] (zone_request unknown_zone "SESSION" "example.org.")
    = ok (JArray [])
  ∧ (getZoneInfo the_logger "SESSION" "acme.test.example.org." unknown_zone).1
    = Panics (IndexOutOfRange 0 0)
  ∧ sent (getZoneInfo the_logger "SESSION" "acme.test.example.org." unknown_zone).2
    = [zone_request unknown_zone "SESSION" "example.org."].
Proof. split_and!; by vm_compute. Qed.

(** ** An action that is neither [present] nor [cleanup] *)

(** The first request of [getZoneInfo], for a domain that has an apex. *)
Lemma getZoneInfo_first_request lg sid domain w apex :
  zone_apex domain = Some apex →
  ∃ k, sent (getZoneInfo lg sid domain w).2 = sent w ++ zone_request w sid apex :: k.
Proof.
  intros Hapex.
  destruct (zone_apex_labels domain apex Hapex) as (sld & tld & Hguard & Hsld & Htld & ->).
  unfold getZoneInfo. rewrite Hguard. run. rewrite Hsld, Htld.
  repeat case_match; simplify_eq; simpl; rewrite <- ?app_assoc; cbn [app]; by eexists.
Qed.

(** C10: with an action other than [present] and [cleanup], at least two
    arguments and a domain, the requests of [main] go out in the order
    login, zone lookup, account-ID lookup, cut short at the first failure,
    and a run that returns has sent all three; none of them adds, looks up or deletes a record.  Once the logger
    is built the login request goes out, after a successful login the run
    sends exactly what [getZoneInfo] sends, starting with the zone lookup
    for the apex when the domain has one, and when [getZoneInfo] returns
    without error it has returned a zone record and [main] returns, so the
    process exits with status 0; when login or [getZoneInfo] returns an
    error [main] exits with status 1. *)
Theorem main_other_action w prog action domain rest :
  Args w = prog :: action :: domain :: rest →
  action ≠ "present" → action ≠ "cleanup" → domain ≠ "" →
  (∃ l, sent (main w).2 = sent w ++ l
        ∧ url <$> l `prefix_of` (api w <$> authentication ++ zone_resolution)
        ∧ ((main w).1 = Returns tt →
             url <$> l = api w <$> authentication ++ zone_resolution)
        ∧ ∀ req, req ∈ l → url req ∉ (api w <$> record_creation ++ record_removal))
  ∧ (∀ lg w1, createLogger w = (Returns lg, w1) →
       (∃ l, sent (main w).2 = sent w ++ login_request w :: l)
       ∧ (∀ sid e w2, login lg w1 = (Returns (sid, Some e), w2) →
            (main w).1 = Exits 1 ∧ sent (main w).2 = sent w2)
       ∧ ∀ sid w2, login lg w1 = (Returns (sid, None), w2) →
           sent (main w).2 = sent (getZoneInfo lg sid domain w2).2
           ∧ (∀ apex, zone_apex domain = Some apex →
                ∃ k, sent (main w).2
                     = sent w ++ login_request w :: zone_request w sid apex :: k)
           ∧ (∀ zi e w3, getZoneInfo lg sid domain w2 = (Returns (zi, Some e), w3) →
                (main w).1 = Exits 1)
           ∧ ∀ zi w3, getZoneInfo lg sid domain w2 = (Returns (zi, None), w3) →
               main w = (Returns tt, w3) ∧ exit_status (main w).1 = 0 ∧ is_Some zi).
Proof.
  intros HArgs Hp Hc Hd.
  enter_main w Hmain HArgs Hd.
  2,3: split; [exists []; rewrite app_nil_r; split_and!;
                 [done|apply prefix_nil|done|by intros ? ?%elem_of_nil]|done].
  rewrite (eqb_false action "present"), (eqb_false action "cleanup") in Hmain by done.
  simpl in Hmain.
  destruct (login_trace lg w1) as (sid & err & w2 & Hlogin & Hf1 & _ & Hs1).
  rewrite Hlogin, (login_request_frame _ _ Hf0), Hs0 in *.
  assert (api w2 = api w) as Hapi by (rewrite (api_frame _ _ Hf1); by apply api_frame).
  assert (∀ apex, zone_apex domain = Some apex →
            ∃ k, sent (getZoneInfo lg sid domain w2).2
                 = sent w ++ login_request w :: zone_request w sid apex :: k) as Hfirst.
  { intros apex Hapex.
    destruct (getZoneInfo_first_request lg sid domain w2 apex Hapex) as [k Hk].
    exists k. rewrite Hk, Hs1, <- app_assoc. unfold zone_request. by rewrite Hapi. }
  destruct (getZoneInfo_trace lg sid domain w2) as (l & Hs2 & Hf2 & _ & Hpre & Hfull).
  rewrite Hapi in Hpre, Hfull. rewrite Hs1, <- app_assoc in Hs2.
  apply (prefix_cons (api w "?login")) in Hpre.
  assert (∃ l, sent wf = sent w ++ login_request w :: l
       ∧ url <$> login_request w :: l `prefix_of` (api w <$> authentication ++ zone_resolution)
       ∧ (o = Returns tt →
            url <$> login_request w :: l = api w <$> authentication ++ zone_resolution)
       ∧ (∀ e, err = Some e → o = Exits 1 ∧ sent wf = sent w2)
       ∧ (err = None → sent wf = sent (getZoneInfo lg sid domain w2).2
            ∧ (∀ zi e w3, getZoneInfo lg sid domain w2 = (Returns (zi, Some e), w3) →
                 o = Exits 1)
            ∧ ∀ zi w3, getZoneInfo lg sid domain w2 = (Returns (zi, None), w3) →
                (o, wf) = (Returns tt, w3) ∧ is_Some zi))
    as (l' & Hl' & Hpre' & Hall & Herr & Hok).
  { destruct err as [e|]; simpl in Hmain.
    - simplify_eq. exists []. repeat apply conj; [done|by eexists|done| |done].
      by intros ? _.
    - destruct (getZoneInfo lg sid domain w2) as [[[zi [e|]]|p|c] w3] eqn:Hzone;
        simpl in *; simplify_eq; exists l; repeat apply conj; try done.
      all: try (intros _; repeat apply conj; try done; by intros; simplify_eq).
      + intros _. f_equal. exact (proj1 (Hfull zi eq_refl)).
      + intros _. repeat apply conj; [done|by intros; simplify_eq|].
        intros zi' w3 [= <- <-]. split; [done|]. by destruct (Hfull zi eq_refl). }
  split.
  - exists (login_request w :: l'). split_and!; try done. by apply other_endpoints.
  - intros ? ? [= <- <-]. split; [eauto|]. split.
    + intros sid' e w2' H. rewrite Hlogin in H. injection H as -> -> ->.
      by apply (Herr e).
    + intros sid' w2' H. rewrite Hlogin in H. injection H as -> -> ->.
      destruct (Hok eq_refl) as (Hsent & Hzerr & Hret).
      split_and!.
      * done.
      * intros apex Hapex. destruct (Hfirst apex Hapex) as [k Hk].
        exists k. simpl. by rewrite Hsent.
      * intros zi e w3 Hz. by apply (Hzerr zi e w3).
      * intros zi w3 Hz. destruct (Hret zi w3 Hz) as [-> Hsome]. done.
Qed.

Lemma main_other_action_witness :
  (∃ l, sent (main renew_run).2 = sent renew_run ++ l
        ∧ url <$> l = api renew_run <$> authentication ++ zone_resolution
        ∧ ∀ req, req ∈ l →
            url req ∉ (api renew_run <$> record_creation ++ record_removal))
  ∧ exit_status (main renew_run).1 = 0.
Proof.
  destruct (main_other_action renew_run "dnschallenge" "renew" "acme.test.example.org." [])
    as [(l & Hsent & _ & Hall & Hnone) Hsteps];
    [reflexivity|discriminate|discriminate|discriminate|].
  split; [exists l; split_and!; [exact Hsent|apply Hall; by vm_compute|exact Hnone]|].
  destruct (Hsteps the_logger (createLogger renew_run).2) as (_ & _ & Hlogin);
    [by vm_compute|].
  destruct (Hlogin "SESSION" (login the_logger (createLogger renew_run).2).2)
    as (_ & _ & _ & Hzone); [by vm_compute|].
  eapply Hzone. by vm_compute.
Defined.

(** ** Creating the record *)

(** C9 (as the code has it): [addTxt] sends one request, to the add
    endpoint, whose parameters carry the name, the type [txt] in lower
    case, the value, the TTL [3600], the active flag [y], the Unix seconds
    of the first clock reading as serial and the second clock reading
    formatted as stamp, together with the flag that forces the update of
    the zone serial. *)
Theorem addTxt_request lg sid cid srv zone fq val w :
  ∃ req, sent (addTxt lg sid cid srv zone fq val w).2 = sent w ++ [req]
    ∧ url req = api w "?dns_txt_add"
    ∧ top req "session_id" = Some (JString sid)
    ∧ top req "client_id" = Some (JInt cid)
    ∧ top req "update_serial" = Some (JBool true)
    ∧ param req "server_id" = Some (JString srv)
    ∧ param req "zone" = Some (JString zone)
    ∧ param req "name" = Some (JString fq)
    ∧ param req "type" = Some (JString "txt")
    ∧ param req "data" = Some (JString val)
    ∧ param req "ttl" = Some (JString "3600")
    ∧ param req "active" = Some (JString "y")
    ∧ param req "serial" = Some (JString (itoa (Unix (clock w (ticks w)))))
    ∧ param req "stamp"
      = Some (JString (Format (clock w (S (ticks w))) "2006-01-02 15:04:05")).
Proof.
  unfold addTxt. run.
  repeat case_match; simplify_eq; (eexists; split; [reflexivity|]); by split_and!.
Qed.

(** C9, as stated, fails: the record type in the request is [txt], not
    [TXT]. *)
Lemma addTxt_type_is_lower_case :
  ∃ req,
    sent (addTxt the_logger "SESSION" 42 "S1" "Z1" "acme.test.example.org." "abc123"
            present_run).2 = [req]
    ∧ param req "type" = Some (JString "txt")
    ∧ param req "type" ≠ Some (JString "TXT").
Proof.
  eexists. split; [vm_compute; reflexivity|]. split; [by vm_compute|]. vm_compute. congruence.
Qed.

Lemma addTxt_request_witness :
  ∃ req,
    sent (addTxt the_logger "SESSION" 42 "S1" "Z1" "acme.test.example.org." "abc123"
            present_run).2 = [req]
    ∧ url req = "https://panel.test/api?dns_txt_add"
    ∧ param req "name" = Some (JString "acme.test.example.org.")
    ∧ param req "data" = Some (JString "abc123")
    ∧ param req "ttl" = Some (JString "3600")
    ∧ param req "serial" = Some (JString "1700000000")
    ∧ param req "stamp" = Some (JString "2023-11-14 22:13:20").
Proof.
  destruct (addTxt_request the_logger "SESSION" 42 "S1" "Z1" "acme.test.example.org."
              "abc123" present_run)
    as (req & Hsent & Hurl & _ & _ & _ & _ & _ & Hname & _ & Hdata & Httl & _ & Hserial & Hstamp).
  exists req. split_and!; try done.
Defined.

(** A map decoded from an object reads a key as the object's last member
    of that name, and otherwise as it read before. *)
Lemma decode_members_lookup (ms : list (string * json)) (m : gmap string json) k :
  foldl (fun acc kv => <[kv.1 := kv.2]> acc) m ms !! k
  = match member k ms with Some v => Some v | None => m !! k end.
Proof.
  revert m. induction ms as [|[k' v] ms IH]; intros m; simpl; [done|].
  rewrite IH. destruct (member k ms); [done|].
  destruct (String.eqb_spec k' k) as [->|Hne].
  - by rewrite lookup_insert_eq.
  - by rewrite lookup_insert_ne.
Qed.

(** C4 (as the code has it): [addTxt] always returns; it returns without
    error exactly when the answer has status 200 and a body that is a JSON
    object whose [response] member is a string, and that string, empty or
    not, is the record ID; in every other case the record ID is empty. *)
Theorem addTxt_returns_id_iff lg sid cid srv zone fq val w :
  ∃ id err req,
    (addTxt lg sid cid srv zone fq val w).1 = Returns (id, err)
    ∧ sent (addTxt lg sid cid srv zone fq val w).2 = sent w ++ [req]
    ∧ url req = api w "?dns_txt_add"
    ∧ (err = None ↔
       ∃ resp ms, backend w (sent w) req = inl resp
         ∧ StatusCode resp = 200
         ∧ Body resp = Some (JObject ms)
         ∧ member "response" ms = Some (JString id))
    ∧ (∀ resp ms s, backend w (sent w) req = inl resp →
         StatusCode resp = 200 → Body resp = Some (JObject ms) →
         member "response" ms = Some (JString s) →
         id = s ∧ err = None)
    ∧ (err ≠ None → id = "").
Proof.
  unfold addTxt. run. unfold ISPCApi, Getenv, StatusOK, Decode, decode_map. simpl.
  match goal with |- context [backend w (sent w) ?r] => set (req := r) end.
  destruct (backend w (sent w) req) as [resp|e] eqn:Hreply; simpl;
    [destruct (Z.eqb_spec (StatusCode resp) 200) as [Hst|Hst]; simpl;
       [destruct (Body resp) as [[| | | | | |ms]|] eqn:Hbody; simpl;
          rewrite ?decode_members_lookup, ?lookup_empty;
          try (destruct (member "response" ms) as [[]|] eqn:Hm; simpl)|]|].
  all: eexists _, _, req; split; [reflexivity|]; split; [reflexivity|];
       split; [reflexivity|]; split; [split|split].
  all: try done.
  all: try (intros (? & ? & ? & ? & ? & ?); simplify_eq; congruence).
  all: try (intros ? ? ? ? ? ? ?; simplify_eq; congruence).
  - intros _. by exists resp, ms.
  - intros ? ? ? ? ? ? ?. simplify_eq. split; congruence.
Qed.

(** C4, as stated, fails twice: an answer with status 201 and a string
    [response] is turned down, and an empty string in a 200 answer is
    returned as the record ID with no error. *)
Lemma addTxt_rejects_201_and_returns_empty_id :
  (is_2xx 201 = true
   ∧ route (answering "?dns_txt_add"
              (reply 201 "201 Created"
                 (JObject [("code", JString "ok"); ("response", JString "REC-9")]))
              healthy)
           "https://panel.test/api?dns_txt_add"
     = reply 201 "201 Created"
         (JObject [("code", JString "ok"); ("response", JString "REC-9")])
   ∧ (addTxt the_logger "SESSION" 42 "S1" "Z1" "acme.test.example.org." "abc123"
        created_201).1
     = Returns ("", Some (Errorf "HTTP request failed with status code: 201")))
  ∧ (addTxt the_logger "SESSION" 42 "S1" "Z1" "acme.test.example.org." "abc123"
       empty_record_id).1
    = Returns ("", None).
Proof. split_and!; by vm_compute. Qed.

Lemma addTxt_returns_id_iff_witness :
  (addTxt the_logger "SESSION" 42 "S1" "Z1" "acme.test.example.org." "abc123"
     present_run).1 = Returns ("REC-9", None).
Proof.
  destruct (addTxt_returns_id_iff the_logger "SESSION" 42 "S1" "Z1"
              "acme.test.example.org." "abc123" present_run)
    as (id & err & req & Hret & Hsent & Hurl & _ & Hid & _).
  destruct (Hid {| StatusCode := 200; Status := "200 OK";
                   Body := Some (JObject [("code", JString "ok"); ("message", JString "");
                                          ("response", JString "REC-9")]) |}
                [("code", JString "ok"); ("message", JString ""); ("response", JString "REC-9")]
                "REC-9") as [-> ->];
    [destruct req as [u ct body]; simpl in Hurl; rewrite Hurl; vm_compute; reflexivity
    |reflexivity..|exact Hret].
Defined.

(** ** Removing the record *)

Lemma NotFoundError_not_DeleteRejected e : NotFoundError e → ¬ DeleteRejected e.
Proof. unfold NotFoundError, DeleteRejected. intros [ -> | [ -> | -> ] ] [=]. Qed.

(** The lookup succeeded but names no record with a string [id] (no
    list, an empty list, a first entry that is no object or has no such
    [id]): [removeTxt] returns a not-found error and no delete call is
    made. *)
Lemma removeTxt_no_record sid fq w resp ms :
  backend w (sent w) (lookup_request w sid fq) = inl resp →
  StatusCode resp = 200 → Body resp = Some (JObject ms) →
  member "code" ms = Some (JString "ok") →
  (∀ r rs fs rid, member "response" ms = Some (JArray (r :: rs)) →
     r = JObject fs → member "id" fs ≠ Some (JString rid)) →
  ∃ e, (removeTxt sid fq w).1 = Returns (Some e) ∧ NotFoundError e
       ∧ sent (removeTxt sid fq w).2 = sent w ++ [lookup_request w sid fq].
Proof.
  intros Hreply Hst Hbody Hcode Hno.
  unfold removeTxt. run.
  unfold lookup_request, api, StatusOK, Decode, decode_map, NotFoundError in *. simpl.
  rewrite Hreply, Hst, Hbody. simpl.
  rewrite decode_members_lookup, lookup_empty, Hcode. simpl.
  rewrite decode_members_lookup, lookup_empty.
  destruct (member "response" ms) as [[| | | | |[|r rs]|]|] eqn:Hresp; simpl; eauto 6.
  destruct r as [| | | | | |fs]; simpl; eauto 6.
  destruct (member "id" fs) as [[| | | |rid| |]|] eqn:Hid; simpl; eauto 6.
  by destruct (Hno _ _ fs rid eq_refl eq_refl).
Qed.

(** The record was found and the delete call answered with an object
    that has a [code] member other than the string [ok]: [removeTxt]
    returns the delete-rejected error, which is none of the not-found
    errors. *)
Lemma removeTxt_delete_rejected sid fq w resp ms fs rs rid resp' ms' c :
  backend w (sent w) (lookup_request w sid fq) = inl resp →
  StatusCode resp = 200 → Body resp = Some (JObject ms) →
  member "code" ms = Some (JString "ok") →
  member "response" ms = Some (JArray (JObject fs :: rs)) →
  member "id" fs = Some (JString rid) →
  backend w (sent w ++ [lookup_request w sid fq]) (delete_request w sid rid) = inl resp' →
  StatusCode resp' = 200 → Body resp' = Some (JObject ms') →
  member "code" ms' = Some c → c ≠ JString "ok" →
  (removeTxt sid fq w).1 = Returns (Some (Errorf "Failed to delete TXT record"))
  ∧ sent (removeTxt sid fq w).2
    = sent w ++ [lookup_request w sid fq; delete_request w sid rid].
Proof.
  intros Hreply Hst Hbody Hcode Hresp Hid Hdel Hst' Hbody' Hcode' Hc.
  unfold removeTxt. run.
  unfold lookup_request, delete_request, api, StatusOK, Decode, decode_map in *. simpl.
  rewrite Hreply, Hst, Hbody. simpl.
  rewrite decode_members_lookup, lookup_empty, Hcode. simpl.
  rewrite decode_members_lookup, lookup_empty, Hresp. simpl.
  rewrite Hid. simpl. rewrite Hdel, Hst', Hbody'. simpl.
  rewrite decode_members_lookup, Hcode', <- app_assoc.
  destruct c as [| | | |s| |]; simpl; try done.
  destruct (String.eqb_spec s "ok") as [->|_]; done.
Qed.

(** C6 (the code departs from it): the delete call answered with status
    200 and an object without a [code] member, hence a code that is not
    [ok], is not reported as a rejection.  The reply is decoded into the map
    that still holds the lookup reply, the second check reads the [ok] of
    the lookup, and [removeTxt] returns no error after both requests. *)
Theorem removeTxt_delete_without_code :
  (∃ resp ms,
     backend delete_without_code
       [lookup_request delete_without_code "SESSION" "acme.test.example.org."]
       (delete_request delete_without_code "SESSION" "REC-9") = inl resp
     ∧ StatusCode resp = 200 ∧ Body resp = Some (JObject ms)
     ∧ member "code" ms = None)
  ∧ (removeTxt "SESSION" "acme.test.example.org." delete_without_code).1 = Returns None
  ∧ sent (removeTxt "SESSION" "acme.test.example.org." delete_without_code).2
    = [lookup_request delete_without_code "SESSION" "acme.test.example.org.";
       delete_request delete_without_code "SESSION" "REC-9"].
Proof. split_and!; [do 2 eexists; split_and!|..]; by vm_compute. Qed.

(** ** The present path and the scenarios of the specification *)

(** X22: on [present] with a domain and a value the requests go out in the
    order login, zone lookup, account-ID lookup, add, cut short at the
    first failure; the add request names the domain and carries the
    value. *)
Lemma main_present_adds_record w prog domain value rest :
  Args w = prog :: "present" :: domain :: value :: rest → domain ≠ "" →
  ∃ l, sent (main w).2 = sent w ++ l
       ∧ url <$> l `prefix_of`
           (api w <$> authentication ++ zone_resolution ++ record_creation)
       ∧ ((main w).1 = Returns tt →
            url <$> l = api w <$> authentication ++ zone_resolution ++ record_creation)
       ∧ ∀ req, req ∈ l → url req = api w "?dns_txt_add" →
           param req "name" = Some (JString domain)
           ∧ param req "type" = Some (JString "txt")
           ∧ param req "data" = Some (JString value).
Proof.
  intros HArgs Hd.
  enter_main w Hmain HArgs Hd.
  2,3: exists []; rewrite app_nil_r; split_and!;
         [done|apply prefix_nil|done|by intros ? ?%elem_of_nil].
  simpl in Hmain.
  destruct (login_trace lg w1) as (sid & err & w2 & Hlogin & Hf1 & _ & Hs1).
  rewrite Hlogin, (login_request_frame _ _ Hf0), Hs0 in *.
  assert (api w2 = api w) as Hapi by (rewrite (api_frame _ _ Hf1); by apply api_frame).
  destruct (getZoneInfo_trace lg sid domain w2) as (l & Hs2 & Hf2 & _ & Hpre & Hfull).
  assert (api (getZoneInfo lg sid domain w2).2 = api w) as Hapi3
    by (rewrite (api_frame _ _ Hf2); done).
  rewrite Hapi, Hs1, <- app_assoc in *. clear Hf0 Hf1 Hf2.
  apply (prefix_cons (api w "?login")) in Hpre.
  assert (∀ req, req ∈ login_request w :: l → url req ≠ api w "?dns_txt_add") as Hnot.
  { intros req Hin Hu.
    destruct (url_among w (login_request w :: l) (authentication ++ zone_resolution) req)
      as (e & He & Hurl); [done..|].
    rewrite Hurl in Hu. apply append_inj_r in Hu. subst e. revert He.
    unfold authentication, zone_resolution. simpl.
    rewrite !elem_of_cons, elem_of_nil. intros [?|[?|[?|[]]]]; discriminate. }
  destruct err as [e|]; simpl in Hmain.
  { simplify_eq. exists [login_request w]. split_and!; [done|by eexists|done|].
    intros req Hin Hu. destruct (Hnot req); [|done].
    apply elem_of_cons. apply elem_of_cons in Hin as [->|Hin]; [by left|].
    by apply elem_of_nil in Hin. }
  destruct (getZoneInfo lg sid domain w2) as [[[zi [e|]]|p|c] w3] eqn:Hzone;
    simpl in *; simplify_eq.
  1,3,4: exists (login_request w :: l); split_and!;
           [done|etrans; [exact Hpre|by eexists]|done|
            intros req Hin Hu; by destruct (Hnot req)].
  destruct (Hfull zi eq_refl) as [Hl [z ->]]. simpl in Hmain.
  destruct (addTxt_trace lg sid (ClientId z) (ServerID z) (ID z) domain value w3)
    as (id & err & w4 & req & Hadd & _ & Hs4 & Hurl & Hname & Htype & Hdata).
  rewrite Hadd in Hmain. rewrite Hapi3, Hs2 in *.
  assert (sent wf = sent w4) as Hwf by (destruct err; simpl in Hmain; by simplify_eq).
  exists (login_request w :: l ++ [req]). split_and!.
  - rewrite Hwf, Hs4, <- !app_assoc. done.
  - rewrite fmap_cons, fmap_app, Hl. simpl. rewrite Hurl. done.
  - intros _. rewrite fmap_cons, fmap_app, Hl. simpl. rewrite Hurl. done.
  - intros req' Hin Hu.
    assert (req' = req) as ->; [|done].
    apply elem_of_cons in Hin as [->|Hin]; [by destruct (Hnot (login_request w)); [left|]|].
    apply elem_of_app in Hin as [Hin|Hin%list_elem_of_singleton]; [|done].
    destruct (Hnot req'); [by right|done].
Qed.

(** Scenario A: [present acme.test.example.org. abc123] against the
    healthy panel reports the record ID [REC-9] and exits with status 0. *)
Lemma scenario_A :
  exit_status (main present_run).1 = 0
  ∧ last (logged (main present_run).2)
    = Some {| level := InfoLevel; message := "Created TXT record";
              fields := [FString "id" "REC-9"] |}
  ∧ url <$> sent (main present_run).2
    = api present_run <$> authentication ++ zone_resolution ++ record_creation.
Proof. split_and!; by vm_compute. Qed.

(** Scenario B: [cleanup] when the panel holds no record ends with the
    not-found error and exit status 1. *)
Lemma scenario_B :
  exit_status (main no_record).1 = 1
  ∧ last (logged (main no_record).2)
    = Some {| level := FatalLevel; message := "Failed to remove record";
              fields := [FError (Errorf "No TXT record found")] |}.
Proof. split_and!; by vm_compute. Qed.

(** Scenario C: [present] without a value fails before any request. *)
Lemma scenario_C :
  exit_status (main present_without_value).1 = 1
  ∧ sent (main present_without_value).2 = []
  ∧ last (logged (main present_without_value).2)
    = Some {| level := FatalLevel;
              message := "Not enough arguments for 'present' action";
              fields := [FInt "minimum" 3; FInt "provided" 3] |}.
Proof. split_and!; by vm_compute. Qed.

(** ** The status of an answer *)

(** The other calls do consult the status. *)

(** X24: the add call answered with a status other than 200 makes
    [addTxt] return an empty record ID and an error that quotes the status
    code, whatever the body says. *)
Lemma addTxt_rejects_status lg sid cid srv zone fq val w :
  ∃ req, url req = api w "?dns_txt_add"
    ∧ ∀ resp, backend w (sent w) req = inl resp → StatusCode resp ≠ 200 →
        (addTxt lg sid cid srv zone fq val w).1
        = Returns ("", Some (Errorf ("HTTP request failed with status code: "
                                     +:+ itoa (StatusCode resp)))).
Proof.
  unfold addTxt. run. unfold ISPCApi, Getenv, StatusOK. simpl.
  match goal with |- context [backend w (sent w) {| url := ?u; contentType := ?c; payload := ?b |}] =>
    exists {| url := u; contentType := c; payload := b |} end.
  split; [reflexivity|]. intros resp Hreply Hst.
  rewrite Hreply. by destruct (Z.eqb_spec (StatusCode resp) 200).
Qed.

(** X23: the TXT lookup answered with a status other than 200 makes
    [removeTxt] return an error that quotes the status code. *)
Lemma removeTxt_rejects_status sid fq w resp :
  backend w (sent w) (lookup_request w sid fq) = inl resp → StatusCode resp ≠ 200 →
  (removeTxt sid fq w).1
  = Returns (Some (Errorf ("HTTP request failed with status code: "
                           +:+ itoa (StatusCode resp)))).
Proof.
  intros Hreply Hst. unfold removeTxt. run.
  unfold lookup_request, api, StatusOK in *. simpl.
  rewrite Hreply. by destruct (Z.eqb_spec (StatusCode resp) 200).
Qed.

(** X5: the zone lookup answered with a status other than 200 makes
    [getZoneInfo] return no zone and an error that quotes the status
    line. *)
Lemma getZoneInfo_rejects_status lg sid domain w apex resp :
  zone_apex domain = Some apex →
  backend w (sent w) (zone_request w sid apex) = inl resp → StatusCode resp ≠ 200 →
  (getZoneInfo lg sid domain w).1
  = Returns (None, Some (Errorf ("failed to retrieve zone information: " +:+ Status resp))).
Proof.
  intros Hapex Hreply Hst.
  destruct (zone_apex_labels domain apex Hapex) as (sld & tld & Hguard & Hsld & Htld & ->).
  unfold getZoneInfo. rewrite Hguard. run. rewrite Hsld, Htld.
  unfold zone_request, api, StatusOK in *. simpl.
  rewrite Hreply. by destruct (Z.eqb_spec (StatusCode resp) 200).
Qed.

(** * Further properties *)

(** ** Zone resolution: results, errors and panics *)

Lemma index_None {A} (l : list A) i : index l i = None → i < 0 ∨ len l ≤ i.
Proof.
  unfold index, len. destruct (Z.ltb_spec i 0) as [Hneg|Hpos]; [by left|].
  intros Hge%lookup_ge_None. right. lia.
Qed.

(** All the ways [getZoneInfo] can end: a zone and no error, no zone and
    an error, or one of two index panics.  It never calls [os.Exit]. *)
Lemma getZoneInfo_outcomes lg sid domain w :
  match (getZoneInfo lg sid domain w).1 with
  | Returns (Some _, None) | Returns (None, Some _) => True
  | Panics p => p = IndexOutOfRange (-1) 2 ∨ p = IndexOutOfRange 0 0
  | _ => False
  end.
Proof.
  unfold getZoneInfo. run.
  destruct (Z.ltb_spec (len (Split domain ".")) 2) as [?|Hlen]; [done|].
  destruct (index (Split domain ".") (len (Split domain ".") - 3)) as [sld|] eqn:Hsld.
  2:{ simpl. left. apply index_None in Hsld as [?|?]; [|lia].
      replace (len (Split domain ".")) with 2 by lia. done. }
  destruct (index (Split domain ".") (len (Split domain ".") - 2)) as [tld|] eqn:Htld.
  2:{ apply index_None in Htld as [?|?]; lia. }
  simpl. repeat case_match; simpl in *; simplify_eq; try done.
  right. match goal with Hi : index ?l 0 = None |- _ =>
            apply index_None in Hi as [?|Hi]; [lia|]; pose proof (len_nonneg l) end.
  f_equal. unfold len in *. lia.
Qed.

(** X1: when [getZoneInfo] returns, it returns a zone record exactly when
    it returns no error. *)
Theorem getZoneInfo_zone_or_error lg sid domain w zi err :
  (getZoneInfo lg sid domain w).1 = Returns (zi, err) →
  (is_Some zi ↔ err = None).
Proof.
  intros Hret. pose proof (getZoneInfo_outcomes lg sid domain w) as Hout.
  rewrite Hret in Hout. by destruct zi, err.
Qed.

Lemma getZoneInfo_zone_or_error_witness :
  (getZoneInfo the_logger "SESSION" "acme.test.example.org." zone_404).1
    = Returns (None, Some (Errorf "failed to retrieve zone information: 404 Not Found"))
  ∧ (is_Some (@None zoneInfoResponse)
     ↔ Some (Errorf "failed to retrieve zone information: 404 Not Found") = None).
Proof.
  assert ((getZoneInfo the_logger "SESSION" "acme.test.example.org." zone_404).1
          = Returns (None, Some (Errorf "failed to retrieve zone information: 404 Not Found")))
    as Hret by (vm_compute; reflexivity).
  split; [exact Hret|].
  exact (getZoneInfo_zone_or_error _ _ _ _ _ _ Hret).
Defined.

(** X2: the zone lookup answered with a first entry whose [id] is not
    empty: the account lookup is keyed by that entry's owner, and the
    record returned holds that entry's IDs and the account ID of the second
    answer.  Later entries and the [code] of either answer play no part. *)
Theorem getZoneInfo_found lg sid domain w apex resp za first others resp' cid :
  zone_apex domain = Some apex →
  backend w (sent w) (zone_request w sid apex) = inl resp →
  StatusCode resp = StatusOK →
  Decode (decode_struct zoneApiResponse_field zoneApiResponse_zero) (Body resp) = Decoded za →
  za_Response za = first :: others → ID first ≠ "" →
  backend w (sent w ++ [zone_request w sid apex]) (client_request w sid (SysUserID first))
    = inl resp' →
  StatusCode resp' = StatusOK →
  Decode (decode_struct clientIDResponse_field 0) (Body resp') = Decoded cid →
  (getZoneInfo lg sid domain w).1
    = Returns (Some {| ID := ID first; ServerID := ServerID first;
                       SysUserID := SysUserID first; ClientId := cid |}, None)
  ∧ sent (getZoneInfo lg sid domain w).2
    = sent w ++ [zone_request w sid apex; client_request w sid (SysUserID first)].
Proof.
  intros Hapex Hzone Hst Hza Hresp Hid Hclient Hst' Hcid.
  destruct (zone_apex_labels domain apex Hapex) as (sld & tld & Hguard & Hsld & Htld & ->).
  unfold getZoneInfo. rewrite Hguard. run. rewrite Hsld, Htld.
  unfold zone_request, client_request, api in *. simpl in *.
  rewrite Hzone, Hst. simpl. rewrite Hza, Hresp. simpl.
  rewrite (eqb_false _ _ Hid). simpl.
  rewrite Hclient, Hst'. simpl. rewrite Hcid. simpl. by rewrite <- app_assoc.
Qed.

Lemma getZoneInfo_found_witness :
  ((getZoneInfo the_logger "SESSION" "acme.test.example.org." two_zones).1
     = Returns (Some {| ID := "Z1"; ServerID := "S1"; SysUserID := "U1"; ClientId := 42 |},
                None)
   ∧ sent (getZoneInfo the_logger "SESSION" "acme.test.example.org." two_zones).2
     = [zone_request two_zones "SESSION" "example.org.";
        client_request two_zones "SESSION" "U1"])
  ∧ ((getZoneInfo the_logger "SESSION" "acme.test.example.org." repeated_response).1
       = Returns (Some {| ID := "Z2"; ServerID := "S1"; SysUserID := "U1"; ClientId := 42 |},
                  None)
     ∧ sent (getZoneInfo the_logger "SESSION" "acme.test.example.org." repeated_response).2
       = [zone_request repeated_response "SESSION" "example.org.";
          client_request repeated_response "SESSION" "U1"]).
Proof.
  pose (z1 := {| ID := "Z1"; ServerID := "S1"; SysUserID := "U1"; ClientId := 0 |}).
  pose (z2 := {| ID := "Z2"; ServerID := "S2"; SysUserID := "U2"; ClientId := 0 |}).
  pose (z9 := {| ID := "Z9"; ServerID := "S9"; SysUserID := "U9"; ClientId := 0 |}).
  pose (z := {| ID := "Z2"; ServerID := "S1"; SysUserID := "U1"; ClientId := 0 |}).
  pose (account := {| StatusCode := 200; Status := "200 OK";
                      Body := Some (JObject [("code", JString "ok"); ("message", JString "");
                                             ("response", JInt 42)]) |}).
  split.
  - apply (getZoneInfo_found the_logger "SESSION" "acme.test.example.org." two_zones
             "example.org."
             {| StatusCode := 200; Status := "200 OK";
                Body := Some (JObject
                  [("code", JString "ok"); ("message", JString "");
                   ("response",
                    JArray [JObject [("id", JString "Z1"); ("server_id", JString "S1");
                                     ("sys_userid", JString "U1")];
                            JObject [("id", JString "Z2"); ("server_id", JString "S2");
                                     ("sys_userid", JString "U2")]])]) |}
             {| za_Code := "ok"; za_Message := ""; za_Response := [z1; z2]; za_spare := [] |}
             z1 [z2] account 42);
      try (vm_compute; reflexivity); discriminate.
  - apply (getZoneInfo_found the_logger "SESSION" "acme.test.example.org." repeated_response
             "example.org."
             {| StatusCode := 200; Status := "200 OK";
                Body := Some (JObject
                  [("code", JString "ok");
                   ("response",
                    JArray [JObject [("id", JString "Z1"); ("server_id", JString "S1");
                                     ("sys_userid", JString "U1")];
                            JObject [("id", JString "Z9"); ("server_id", JString "S9");
                                     ("sys_userid", JString "U9")]]);
                   ("response", JArray [JObject [("id", JString "Z2")]])]) |}
             {| za_Code := "ok"; za_Message := ""; za_Response := [z]; za_spare := [z9] |}
             z [] account 42);
      try (vm_compute; reflexivity); discriminate.
Defined.

(** A second [response] member whose entry names no [id] leaves the [id]
    of the first in place: the zone counts as found, and the account lookup
    asks for the owner that the first member named. *)
Lemma getZoneInfo_repeated_blank_response :
  (getZoneInfo the_logger "SESSION" "acme.test.example.org." repeated_blank_response).1
    = Returns (Some {| ID := "Z1"; ServerID := ""; SysUserID := "U1"; ClientId := 42 |}, None)
  ∧ sent (getZoneInfo the_logger "SESSION" "acme.test.example.org."
            repeated_blank_response).2
    = [zone_request repeated_blank_response "SESSION" "example.org.";
       client_request repeated_blank_response "SESSION" "U1"].
Proof. split; by vm_compute. Qed.

Lemma getZoneInfo_zone_not_found_witness :
  (getZoneInfo the_logger "SESSION" "acme.test.example.org." blank_zone).1
    = Returns (Some {| ID := ""; ServerID := ""; SysUserID := ""; ClientId := 42 |}, None)
  ∧ sent (getZoneInfo the_logger "SESSION" "acme.test.example.org." blank_zone).2
    = [zone_request blank_zone "SESSION" "example.org.";
       client_request blank_zone "SESSION" ""].
Proof.
  pose (z := {| ID := ""; ServerID := "S1"; SysUserID := "U1"; ClientId := 0 |}).
  apply (getZoneInfo_zone_not_found the_logger "SESSION" "acme.test.example.org." blank_zone
           "example.org."
           {| StatusCode := 200; Status := "200 OK";
              Body := Some (JObject
                [("code", JString "ok"); ("message", JString "");
                 ("response",
                  JArray [JObject [("id", JString ""); ("server_id", JString "S1");
                                   ("sys_userid", JString "U1")]])]) |}
           {| za_Code := "ok"; za_Message := ""; za_Response := [z]; za_spare := [] |} z []
           {| StatusCode := 200; Status := "200 OK";
              Body := Some (JObject [("code", JString "ok"); ("message", JString "");
                                     ("response", JInt 42)]) |}
           42);
    vm_compute; reflexivity.
Defined.

Lemma getZoneInfo_short_domain_witness :
  len (Split "localhost" ".") < 3
  ∧ (getZoneInfo the_logger "SESSION" "localhost" cleanup_run).2 = cleanup_run
  ∧ (getZoneInfo the_logger "SESSION" "localhost" cleanup_run).1
    = Returns (None, Some (Errorf "invalid domain format")).
Proof.
  assert (len (Split "localhost" ".") < 3) as Hlen by (vm_compute; reflexivity).
  split; [exact Hlen|].
  destruct (getZoneInfo_short_domain the_logger "SESSION" "localhost" cleanup_run Hlen)
    as (Hworld & Hone & _).
  split; [exact Hworld|]. apply Hone. vm_compute. reflexivity.
Defined.

Lemma getZoneInfo_rejects_status_witness :
  (getZoneInfo the_logger "SESSION" "acme.test.example.org." zone_404).1
  = Returns (None, Some (Errorf "failed to retrieve zone information: 404 Not Found")).
Proof.
  apply (getZoneInfo_rejects_status the_logger "SESSION" "acme.test.example.org." zone_404
           "example.org."
           {| StatusCode := 404; Status := "404 Not Found"; Body := Some JNull |});
    [vm_compute; reflexivity..|discriminate].
Defined.

(** X6: a zone was found and the account lookup is answered with a
    status other than 200: [getZoneInfo] returns no zone and an error that
    quotes the status line. *)
Theorem getZoneInfo_account_rejects_status lg sid domain w apex resp za first others resp' :
  zone_apex domain = Some apex →
  backend w (sent w) (zone_request w sid apex) = inl resp →
  StatusCode resp = StatusOK →
  Decode (decode_struct zoneApiResponse_field zoneApiResponse_zero) (Body resp) = Decoded za →
  za_Response za = first :: others → ID first ≠ "" →
  backend w (sent w ++ [zone_request w sid apex]) (client_request w sid (SysUserID first))
    = inl resp' →
  StatusCode resp' ≠ 200 →
  (getZoneInfo lg sid domain w).1
  = Returns (None, Some (Errorf ("failed to retrieve client ID: " +:+ Status resp'))).
Proof.
  intros Hapex Hzone Hst Hza Hresp Hid Hclient Hst'.
  destruct (zone_apex_labels domain apex Hapex) as (sld & tld & Hguard & Hsld & Htld & ->).
  unfold getZoneInfo. rewrite Hguard. run. rewrite Hsld, Htld.
  unfold zone_request, client_request, api, StatusOK in *. simpl in *.
  rewrite Hzone, Hst. simpl. rewrite Hza, Hresp. simpl.
  rewrite (eqb_false _ _ Hid). simpl.
  rewrite Hclient. by destruct (Z.eqb_spec (StatusCode resp') 200).
Qed.

Lemma getZoneInfo_account_rejects_status_witness :
  (getZoneInfo the_logger "SESSION" "acme.test.example.org." account_503).1
  = Returns (None, Some (Errorf "failed to retrieve client ID: 503 Service Unavailable")).
Proof.
  pose (z := {| ID := "Z1"; ServerID := "S1"; SysUserID := "U1"; ClientId := 0 |}).
  apply (getZoneInfo_account_rejects_status the_logger "SESSION" "acme.test.example.org."
           account_503 "example.org."
           {| StatusCode := 200; Status := "200 OK";
              Body := Some (JObject [("code", JString "ok"); ("message", JString "");
                                     ("response", zone_Z1)]) |}
           {| za_Code := "ok"; za_Message := ""; za_Response := [z]; za_spare := [] |} z []
           {| StatusCode := 503; Status := "503 Service Unavailable";
              Body := Some (JObject [("code", JString "ok")]) |});
    try (vm_compute; reflexivity); discriminate.
Defined.

(** ** Removing the record: the other ways out *)

(** The steps of [removeTxt] up to the delete call, for a lookup that
    yields the record ID [rid]. *)
Lemma removeTxt_reaches_delete sid fq w resp ms fs rs rid :
  backend w (sent w) (lookup_request w sid fq) = inl resp →
  StatusCode resp = 200 → Body resp = Some (JObject ms) →
  member "code" ms = Some (JString "ok") →
  member "response" ms = Some (JArray (JObject fs :: rs)) →
  member "id" fs = Some (JString rid) →
  removeTxt sid fq w
  = let w' := with_sent w (sent w ++ [lookup_request w sid fq; delete_request w sid rid]) in
    match backend w (sent w ++ [lookup_request w sid fq]) (delete_request w sid rid) with
    | inr err => (Returns (Some err), w')
    | inl resp' =>
        if negb (StatusCode resp' =? 200)
        then (Returns (Some (Errorf ("HTTP request failed with status code: "
                                     +:+ itoa (StatusCode resp')))), w')
        else
          match Decode (decode_map (foldl (fun acc kv => <[kv.1 := kv.2]> acc) ∅ ms))
                  (Body resp') with
          | DecodeError err => (Returns (Some err), w')
          | Decoded response =>
              let '(code, ok) := assert_string (response !! "code") in
              if ok && String.eqb code "ok" then (Returns None, w')
              else (Returns (Some (Errorf "Failed to delete TXT record")), w')
          end
    end.
Proof.
  intros Hreply Hst Hbody Hcode Hresp Hid.
  unfold removeTxt. run.
  unfold lookup_request, delete_request, api, StatusOK, Decode, decode_map in *. simpl.
  rewrite Hreply, Hst, Hbody. simpl.
  rewrite decode_members_lookup, lookup_empty, Hcode. simpl.
  rewrite decode_members_lookup, lookup_empty, Hresp. simpl.
  rewrite Hid. simpl. rewrite <- app_assoc. simpl.
  repeat case_match; simplify_eq; done.
Qed.

(** X7: the lookup names a record and the delete call is answered with
    status 200 and the code [ok]: [removeTxt] returns no error, having sent
    the lookup for the name with type [TXT] and then one delete call, keyed
    by the [id] of the first entry of the result; later entries are left
    alone. *)
Theorem removeTxt_deletes_first_record sid fq w resp ms fs rs rid resp' ms' :
  backend w (sent w) (lookup_request w sid fq) = inl resp →
  StatusCode resp = 200 → Body resp = Some (JObject ms) →
  member "code" ms = Some (JString "ok") →
  member "response" ms = Some (JArray (JObject fs :: rs)) →
  member "id" fs = Some (JString rid) →
  backend w (sent w ++ [lookup_request w sid fq]) (delete_request w sid rid) = inl resp' →
  StatusCode resp' = 200 → Body resp' = Some (JObject ms') →
  member "code" ms' = Some (JString "ok") →
  (removeTxt sid fq w).1 = Returns None
  ∧ sent (removeTxt sid fq w).2
    = sent w ++ [lookup_request w sid fq; delete_request w sid rid].
Proof.
  intros Hreply Hst Hbody Hcode Hresp Hid Hdel Hst' Hbody' Hcode'.
  rewrite (removeTxt_reaches_delete sid fq w resp ms fs rs rid) by done.
  cbn zeta. rewrite Hdel, Hst', Hbody'. simpl.
  by rewrite decode_members_lookup, Hcode'.
Qed.

Lemma removeTxt_deletes_first_record_witness :
  (removeTxt "SESSION" "acme.test.example.org." two_records).1 = Returns None
  ∧ sent (removeTxt "SESSION" "acme.test.example.org." two_records).2
    = [lookup_request two_records "SESSION" "acme.test.example.org.";
       delete_request two_records "SESSION" "REC-9"].
Proof.
  apply (removeTxt_deletes_first_record "SESSION" "acme.test.example.org." two_records
           {| StatusCode := 200; Status := "200 OK";
              Body := Some (JObject
                [("code", JString "ok"); ("message", JString "");
                 ("response", JArray [JObject [("id", JString "REC-9")];
                                      JObject [("id", JString "REC-10")]])]) |}
           [("code", JString "ok"); ("message", JString "");
            ("response", JArray [JObject [("id", JString "REC-9")];
                                 JObject [("id", JString "REC-10")]])]
           [("id", JString "REC-9")] [JObject [("id", JString "REC-10")]] "REC-9"
           {| StatusCode := 200; Status := "200 OK";
              Body := Some (JObject [("code", JString "ok"); ("message", JString "");
                                     ("response", JInt 1)]) |}
           [("code", JString "ok"); ("message", JString ""); ("response", JInt 1)]);
    vm_compute; reflexivity.
Defined.

(** X8: the delete reply is decoded into the map that still holds the
    lookup reply.  A delete reply with status 200 whose body is a JSON
    object without a [code] member therefore reads the [ok] of the lookup
    and counts as a success, while the body [null] empties the map and is
    a failure. *)
Theorem removeTxt_delete_reply_without_code sid fq w resp ms fs rs rid resp' :
  backend w (sent w) (lookup_request w sid fq) = inl resp →
  StatusCode resp = 200 → Body resp = Some (JObject ms) →
  member "code" ms = Some (JString "ok") →
  member "response" ms = Some (JArray (JObject fs :: rs)) →
  member "id" fs = Some (JString rid) →
  backend w (sent w ++ [lookup_request w sid fq]) (delete_request w sid rid) = inl resp' →
  StatusCode resp' = 200 →
  (∀ ms', Body resp' = Some (JObject ms') → member "code" ms' = None →
          (removeTxt sid fq w).1 = Returns None)
  ∧ (Body resp' = Some JNull →
     (removeTxt sid fq w).1 = Returns (Some (Errorf "Failed to delete TXT record"))).
Proof.
  intros Hreply Hst Hbody Hcode Hresp Hid Hdel Hst'.
  rewrite (removeTxt_reaches_delete sid fq w resp ms fs rs rid) by done.
  cbn zeta. rewrite Hdel, Hst'. split.
  - intros ms' Hbody' Hnone. rewrite Hbody'. simpl.
    by rewrite !decode_members_lookup, Hnone, Hcode.
  - intros Hbody'. rewrite Hbody'. simpl. by rewrite lookup_empty.
Qed.

Lemma removeTxt_delete_reply_without_code_witness :
  (removeTxt "SESSION" "acme.test.example.org." delete_without_code).1 = Returns None.
Proof.
  destruct (removeTxt_delete_reply_without_code "SESSION" "acme.test.example.org."
              delete_without_code
              {| StatusCode := 200; Status := "200 OK";
                 Body := Some (JObject
                   [("code", JString "ok"); ("message", JString "");
                    ("response", JArray [JObject [("id", JString "REC-9")]])]) |}
              [("code", JString "ok"); ("message", JString "");
               ("response", JArray [JObject [("id", JString "REC-9")]])]
              [("id", JString "REC-9")] [] "REC-9"
              {| StatusCode := 200; Status := "200 OK";
                 Body := Some (JObject [("message", JString "denied")]) |})
    as [Hobject _]; [vm_compute; reflexivity..|].
  apply (Hobject [("message", JString "denied")]); reflexivity.
Defined.

(** X9: the lookup answered with status 200 and a JSON object whose
    [code] is not the string [ok]: [removeTxt] returns the retrieval error
    and sends no delete call. *)
Theorem removeTxt_lookup_refused sid fq w resp ms :
  backend w (sent w) (lookup_request w sid fq) = inl resp →
  StatusCode resp = 200 → Body resp = Some (JObject ms) →
  member "code" ms ≠ Some (JString "ok") →
  (removeTxt sid fq w).1 = Returns (Some (Errorf "Failed to retrieve TXT record"))
  ∧ sent (removeTxt sid fq w).2 = sent w ++ [lookup_request w sid fq].
Proof.
  intros Hreply Hst Hbody Hcode.
  unfold removeTxt. run.
  unfold lookup_request, api, StatusOK, Decode, decode_map in *. simpl.
  rewrite Hreply, Hst, Hbody. simpl.
  rewrite decode_members_lookup, lookup_empty.
  destruct (member "code" ms) as [[| | | |s| |]|]; simpl; try done.
  destruct (String.eqb_spec s "ok") as [->|_]; done.
Qed.

Lemma removeTxt_lookup_refused_witness :
  (removeTxt "SESSION" "acme.test.example.org." lookup_refused).1
    = Returns (Some (Errorf "Failed to retrieve TXT record"))
  ∧ sent (removeTxt "SESSION" "acme.test.example.org." lookup_refused).2
    = [lookup_request lookup_refused "SESSION" "acme.test.example.org."].
Proof.
  apply (removeTxt_lookup_refused "SESSION" "acme.test.example.org." lookup_refused
           {| StatusCode := 200; Status := "200 OK";
              Body := Some (JObject [("code", JString "remote_fault");
                                     ("message", JString "denied");
                                     ("response", JBool false)]) |}
           [("code", JString "remote_fault"); ("message", JString "denied");
            ("response", JBool false)]);
    try (vm_compute; reflexivity). vm_compute. discriminate.
Defined.

(** X10: the lookup names a record and the delete call is answered with
    a status other than 200: [removeTxt] returns an error that quotes the
    status code, whatever the body says. *)
Theorem removeTxt_delete_rejects_status sid fq w resp ms fs rs rid resp' :
  backend w (sent w) (lookup_request w sid fq) = inl resp →
  StatusCode resp = 200 → Body resp = Some (JObject ms) →
  member "code" ms = Some (JString "ok") →
  member "response" ms = Some (JArray (JObject fs :: rs)) →
  member "id" fs = Some (JString rid) →
  backend w (sent w ++ [lookup_request w sid fq]) (delete_request w sid rid) = inl resp' →
  StatusCode resp' ≠ 200 →
  (removeTxt sid fq w).1
  = Returns (Some (Errorf ("HTTP request failed with status code: "
                           +:+ itoa (StatusCode resp')))).
Proof.
  intros Hreply Hst Hbody Hcode Hresp Hid Hdel Hst'.
  rewrite (removeTxt_reaches_delete sid fq w resp ms fs rs rid) by done.
  cbn zeta. rewrite Hdel. by destruct (Z.eqb_spec (StatusCode resp') 200).
Qed.

Lemma removeTxt_delete_rejects_status_witness :
  (removeTxt "SESSION" "acme.test.example.org." delete_500).1
  = Returns (Some (Errorf "HTTP request failed with status code: 500")).
Proof.
  apply (removeTxt_delete_rejects_status "SESSION" "acme.test.example.org." delete_500
           {| StatusCode := 200; Status := "200 OK";
              Body := Some (JObject
                [("code", JString "ok"); ("message", JString "");
                 ("response", JArray [JObject [("id", JString "REC-9")]])]) |}
           [("code", JString "ok"); ("message", JString "");
            ("response", JArray [JObject [("id", JString "REC-9")]])]
           [("id", JString "REC-9")] [] "REC-9"
           {| StatusCode := 500; Status := "500 Internal Server Error"; Body := Some JNull |});
    try (vm_compute; reflexivity). discriminate.
Defined.

Lemma removeTxt_rejects_status_witness :
  (removeTxt "SESSION" "acme.test.example.org." lookup_502).1
  = Returns (Some (Errorf "HTTP request failed with status code: 502")).
Proof.
  apply (removeTxt_rejects_status "SESSION" "acme.test.example.org." lookup_502
           {| StatusCode := 502; Status := "502 Bad Gateway"; Body := Some JNull |});
    [vm_compute; reflexivity|discriminate].
Defined.

Lemma addTxt_rejects_status_witness :
  (addTxt the_logger "SESSION" 42 "S1" "Z1" "acme.test.example.org." "abc123" add_500).1
  = Returns ("", Some (Errorf "HTTP request failed with status code: 500")).
Proof.
  destruct (addTxt_rejects_status the_logger "SESSION" 42 "S1" "Z1"
              "acme.test.example.org." "abc123" add_500) as (req & Hurl & Hrej).
  apply (Hrej {| StatusCode := 500; Status := "500 Internal Server Error";
                 Body := Some JNull |}); [|discriminate].
  destruct req as [u ct body]. simpl in Hurl. rewrite Hurl. vm_compute. reflexivity.
Defined.

(** ** Authentication: the request and the log *)

(** X11: [login] sends one request, to the login endpoint, with the user
    name and the password of the environment and the flag [client_login]
    set to false. *)
Theorem login_sends_credentials lg w :
  ∃ req, sent (login lg w).2 = sent w ++ [req]
    ∧ url req = Getenv w "ISPC_Api" +:+ "?login"
    ∧ contentType req = "application/json"
    ∧ payload req = JObject [("client_login", JBool false);
                             ("password", JString (Getenv w "ISPC_Password"));
                             ("username", JString (Getenv w "ISPC_User"))].
Proof.
  unfold login. run. unfold ISPCApi, ISPCUser, ISPCPassword, Getenv. simpl.
  repeat case_match; simplify_eq; by eexists.
Qed.

Lemma login_sends_credentials_witness :
  ∃ req, sent (login the_logger cleanup_run).2 = [req]
    ∧ url req = "https://panel.test/api?login"
    ∧ payload req = JObject [("client_login", JBool false);
                             ("password", JString "secret");
                             ("username", JString "acme")].
Proof.
  destruct (login_sends_credentials the_logger cleanup_run)
    as (req & Hsent & Hurl & _ & Hpayload).
  exists req. split_and!; [exact Hsent|exact Hurl|exact Hpayload].
Defined.

(** X12: what [login] writes to the log: the entry [Getting Session ID]
    and, when it returns without error, the entry [Retrieved Session ID].
    Neither has fields: the session ID and the credentials are not
    logged. *)
Theorem login_log lg w :
  ∃ sid err, (login lg w).1 = Returns (sid, err)
    ∧ logged (login lg w).2
      = logged w
        ++ {| level := InfoLevel; message := "Getting Session ID"; fields := [] |}
        :: match err with
           | None => [{| level := InfoLevel; message := "Retrieved Session ID";
                         fields := [] |}]
           | Some _ => []
           end.
Proof.
  unfold login. run.
  repeat case_match; simplify_eq; eexists _, _; (split; [reflexivity|]); simpl;
    by rewrite <- ?app_assoc.
Qed.

Lemma login_log_witness :
  logged (login the_logger cleanup_run).2
  = [{| level := InfoLevel; message := "Getting Session ID"; fields := [] |};
     {| level := InfoLevel; message := "Retrieved Session ID"; fields := [] |}]
  ∧ logged (login the_logger login_refused).2
    = [{| level := InfoLevel; message := "Getting Session ID"; fields := [] |}].
Proof.
  split.
  - destruct (login_log the_logger cleanup_run) as (sid & err & Hret & Hlog).
    rewrite Hlog. vm_compute in Hret. by injection Hret as <- <-.
  - destruct (login_log the_logger login_refused) as (sid & err & Hret & Hlog).
    rewrite Hlog. vm_compute in Hret. by injection Hret as <- <-.
Defined.

(** ** What the steps leave in the log and in the requests *)

(** [getZoneInfo], [addTxt] and [removeTxt] write nothing to the log (their
    entries are at debug level), and every request they send carries the
    session ID they were given. *)
Lemma getZoneInfo_quiet lg sid domain w :
  logged (getZoneInfo lg sid domain w).2 = logged w
  ∧ ∃ l, sent (getZoneInfo lg sid domain w).2 = sent w ++ l
         ∧ ∀ req, req ∈ l → top req "session_id" = Some (JString sid).
Proof.
  unfold getZoneInfo. run.
  repeat case_match; simplify_eq; simpl; (split; [done|]).
  all: first [ solve [exists []; rewrite app_nil_r; split; [done|by intros ? ?%elem_of_nil]]
             | solve [eexists [_]; split; [done|];
                      intros ? ->%list_elem_of_singleton; reflexivity]
             | solve [eexists [_; _]; rewrite <- app_assoc; split; [done|];
                      intros ? [ -> | ->%list_elem_of_singleton ]%elem_of_cons; reflexivity] ].
Qed.

Lemma addTxt_quiet lg sid cid srv zone fq val w :
  logged (addTxt lg sid cid srv zone fq val w).2 = logged w
  ∧ ∃ req, sent (addTxt lg sid cid srv zone fq val w).2 = sent w ++ [req]
           ∧ top req "session_id" = Some (JString sid)
           ∧ top req "client_id" = Some (JInt cid)
           ∧ param req "server_id" = Some (JString srv)
           ∧ param req "zone" = Some (JString zone).
Proof.
  unfold addTxt. run.
  repeat case_match; simplify_eq; simpl; (split; [done|]); eexists;
    (split; [reflexivity|]); by split_and!.
Qed.

Lemma removeTxt_quiet sid fq w :
  logged (removeTxt sid fq w).2 = logged w
  ∧ (∃ err, (removeTxt sid fq w).1 = Returns err)
  ∧ ∃ l, sent (removeTxt sid fq w).2 = sent w ++ l
         ∧ ∀ req, req ∈ l → top req "session_id" = Some (JString sid).
Proof.
  unfold removeTxt. run.
  repeat case_match; simplify_eq; simpl.
  all: try (exfalso;
            match goal with
            | Hi : index ?l 0 = None, Hb : (_ || (len ?l =? 0)) = false |- _ =>
                apply index_None in Hi as [?|?];
                apply orb_false_elim in Hb as [_ Hb]; apply Z.eqb_neq in Hb;
                pose proof (len_nonneg l); lia
            end).
  all: (split; [done|]); (split; [by eexists|]).
  all: first [ solve [eexists [_]; split; [done|];
                      intros ? ->%list_elem_of_singleton; reflexivity]
             | solve [eexists [_; _]; rewrite <- app_assoc; split; [done|];
                      intros ? [ -> | ->%list_elem_of_singleton ]%elem_of_cons; reflexivity] ].
Qed.

(** ** The orchestration of [main] *)

Lemma validated_args (prog action domain : string) (rest : list string) :
  (len (prog :: action :: domain :: rest) <? 3) = false.
Proof. rewrite !len_cons. pose proof (len_nonneg rest). lia. Qed.

(** The run of [main] on a command line that passes validation, step by
    step: login, zone resolution, then the action. *)
Lemma main_steps w prog action domain rest lg w1 :
  Args w = prog :: action :: domain :: rest → valid_args (Args w) = true →
  createLogger w = (Returns lg, w1) →
  main w =
  match login lg w1 with
  | (Returns (sid, Some e), w2) =>
      (Exits 1, with_logged w2 (logged w2 ++ [fatal_entry "Failed to login" e]))
  | (Returns (sid, None), w2) =>
      match getZoneInfo lg sid domain w2 with
      | (Returns (zi, Some e), w3) =>
          (Exits 1, with_logged w3 (logged w3 ++ [fatal_entry "Failed to get zone info" e]))
      | (Returns (zi, None), w3) =>
          if String.eqb action "present" then
            match rest, zi with
            | value :: _, Some z =>
                match addTxt lg sid (ClientId z) (ServerID z) (ID z) domain value w3 with
                | (Returns (id, Some e), w4) =>
                    (Exits 1,
                     with_logged w4 (logged w4 ++ [fatal_entry "Failed to add record" e]))
                | (Returns (id, None), w4) =>
                    (Returns tt,
                     with_logged w4
                       (logged w4 ++ [{| level := InfoLevel; message := "Created TXT record";
                                         fields := [FString "id" id] |}]))
                | (Panics p, w4) => (Panics p, w4)
                | (Exits c, w4) => (Exits c, w4)
                end
            | value :: _, None => (Panics NilDereference, w3)
            | [], _ => (Panics (IndexOutOfRange 3 3), w3)
            end
          else if String.eqb action "cleanup" then
            match removeTxt sid domain w3 with
            | (Returns (Some e), w4) =>
                (Exits 1,
                 with_logged w4 (logged w4 ++ [fatal_entry "Failed to remove record" e]))
            | (Returns None, w4) =>
                (Returns tt,
                 with_logged w4
                   (logged w4 ++ [{| level := InfoLevel; message := "Removed TXT record";
                                     fields := [] |}]))
            | (Panics p, w4) => (Panics p, w4)
            | (Exits c, w4) => (Exits c, w4)
            end
          else (Returns tt, w3)
      | (Panics p, w3) => (Panics p, w3)
      | (Exits c, w3) => (Exits c, w3)
      end
  | (Panics p, w2) => (Panics p, w2)
  | (Exits c, w2) => (Exits c, w2)
  end.
Proof.
  intros HArgs Hvalid Hlog.
  unfold valid_args in Hvalid. rewrite HArgs in Hvalid.
  apply andb_true_iff in Hvalid as [Hp Hd]. apply negb_true_iff in Hp, Hd.
  destruct (createLogger_trace w) as [_ Hf0]. rewrite Hlog in Hf0. simpl in Hf0.
  unfold main. run. rewrite Hlog.
  replace (Args w1) with (Args w) by (by injection Hf0).
  rewrite HArgs, validated_args.
  set (short := len (prog :: action :: domain :: rest) <? 4) in *.
  simpl. rewrite Hp, Hd.
  destruct (login lg w1) as [[[sid [e|]]|p|c] w2]; simpl; try reflexivity.
  destruct (getZoneInfo lg sid domain w2) as [[[zi [e|]]|p|c] w3]; simpl; try reflexivity.
  destruct (String.eqb action "present") eqn:Hpresent; simpl.
  - destruct rest as [|value rest']; [discriminate Hp|]. simpl.
    destruct zi as [z|]; simpl; [|reflexivity].
    destruct (addTxt lg sid (ClientId z) (ServerID z) (ID z) domain value w3)
      as [[[id [e|]]|p|c] w4]; reflexivity.
  - destruct (String.eqb action "cleanup"); simpl; [|reflexivity].
    destruct (removeTxt sid domain w3) as [[[e|]|p|c] w4]; reflexivity.
Qed.

Lemma valid_args_shape args :
  valid_args args = true →
  ∃ prog action domain rest, args = prog :: action :: domain :: rest.
Proof. destruct args as [|prog [|action [|domain rest]]]; try done. by eexists _, _, _, _. Qed.

(** [createLogger] writes no log entry; it ends with a logger, with
    [os.Exit(1)] or with the panic of [zap.Must]. *)
Lemma createLogger_outcomes w :
  logged (createLogger w).2 = logged w
  ∧ match (createLogger w).1 with
    | Returns _ => True
    | Panics p => ∃ e, p = MustFailed e
    | Exits c => c = 1
    end.
Proof.
  unfold createLogger. run. repeat case_match; simpl in *; simplify_eq; split; eauto.
Qed.

(** Without a logger [main] ends as [createLogger] did. *)
Lemma main_logger_failed w :
  match createLogger w with
  | (Returns _, _) => True
  | (Panics p, w1) => main w = (Panics p, w1)
  | (Exits c, w1) => main w = (Exits c, w1)
  end.
Proof. unfold main. run. by destruct (createLogger w) as [[lg|p|c] w1]. Qed.

(** A command line that does not pass: a fatal entry, exit status 1. *)
Lemma main_invalid w lg w1 :
  valid_args (Args w) = false → createLogger w = (Returns lg, w1) →
  ∃ msg fs,
    main w = (Exits 1, with_logged w1 (logged w1 ++ [{| level := FatalLevel; message := msg;
                                                         fields := fs |}])).
Proof.
  intros Hvalid Hlog.
  destruct (createLogger_trace w) as [_ Hf0]. rewrite Hlog in Hf0. simpl in Hf0.
  unfold main. run. rewrite Hlog.
  replace (Args w1) with (Args w) by (by injection Hf0).
  destruct (Args w) as [|prog [|action [|domain rest]]] eqn:HArgs;
    try (simpl; by eexists _, _).
  rewrite validated_args. unfold valid_args in Hvalid.
  set (short := len (prog :: action :: domain :: rest) <? 4) in *.
  simpl. destruct (String.eqb action "present" && short); simpl; [by eexists _, _|].
  destruct (String.eqb domain ""); simpl; [by eexists _, _|done].
Qed.

(** X13: a command line with fewer than two arguments, with [present]
    and no value, or with an empty domain is turned down before any
    request is sent: the exit status is not 0 and, once the logger is
    built, [main] exits with status 1 after one fatal log entry. *)
Theorem main_validates_arguments w :
  valid_args (Args w) = false →
  sent (main w).2 = sent w
  ∧ exit_status (main w).1 ≠ 0
  ∧ ∀ lg w1, createLogger w = (Returns lg, w1) →
      (main w).1 = Exits 1
      ∧ ∃ msg fs, logged (main w).2
                  = logged w ++ [{| level := FatalLevel; message := msg; fields := fs |}].
Proof.
  intros Hvalid.
  destruct (createLogger_trace w) as [Hs0 _].
  destruct (createLogger_outcomes w) as [Hl0 Hout].
  destruct (createLogger w) as [[lg|p|c] w1] eqn:Hlog; simpl in *.
  - destruct (main_invalid w lg w1 Hvalid Hlog) as (msg & fs & ->). simpl.
    split_and!; [done|done|]. intros ? ? [= <- <-]. split; [done|].
    exists msg, fs. by rewrite Hl0.
  - pose proof (main_logger_failed w) as Hmain. rewrite Hlog in Hmain.
    rewrite Hmain. by split_and!.
  - pose proof (main_logger_failed w) as Hmain. rewrite Hlog in Hmain.
    rewrite Hmain. subst c. by split_and!.
Qed.

Lemma main_validates_arguments_witness :
  valid_args (Args present_without_value) = false
  ∧ sent (main present_without_value).2 = []
  ∧ (main present_without_value).1 = Exits 1.
Proof.
  assert (valid_args (Args present_without_value) = false) as Hvalid by (vm_compute; reflexivity).
  split; [exact Hvalid|].
  destruct (main_validates_arguments present_without_value Hvalid) as (Hsent & _ & Hexit).
  split; [exact Hsent|].
  apply (Hexit the_logger (createLogger present_without_value).2). vm_compute. reflexivity.
Defined.

(** X14: when the log directory cannot be created [main] prints the
    error and exits with status 1, and when the logger cannot be built it
    panics; either way nothing has been logged, no argument has been
    looked at and no request has been sent. *)
Theorem main_without_logger w :
  (∀ e, MkdirAll w (ISPCLogPath w +:+ "/") = Some e →
        main w = (Exits 1,
                  with_stdout w (stdout w ++ ["Error creating directory: " +:+ Error e])))
  ∧ (∀ e, MkdirAll w (ISPCLogPath w +:+ "/") = None →
          Build w ["stderr"; (ISPCLogPath w +:+ "/") +:+ "/"
                             +:+ Format (clock w (ticks w)) "2006-01-02" +:+ ".log"]
            = Some e →
          (main w).1 = Panics (MustFailed e)
          ∧ sent (main w).2 = sent w ∧ logged (main w).2 = logged w
          ∧ stdout (main w).2 = stdout w).
Proof.
  pose proof (main_logger_failed w) as Hmain.
  unfold createLogger in Hmain. run_in Hmain. split.
  - intros e He. rewrite He in Hmain. exact Hmain.
  - intros e Hdir He. rewrite Hdir in Hmain. simpl in Hmain, He. rewrite He in Hmain.
    by rewrite Hmain.
Qed.

Lemma main_without_logger_witness :
  main (without_log_directory cleanup_run (MkdirError "mkdir /var/log/ispc/: permission denied"))
  = (Exits 1,
     with_stdout
       (without_log_directory cleanup_run
          (MkdirError "mkdir /var/log/ispc/: permission denied"))
       ["Error creating directory: mkdir /var/log/ispc/: permission denied"])
  ∧ (main (without_log_file cleanup_run (Errorf "open sink: permission denied"))).1
    = Panics (MustFailed (Errorf "open sink: permission denied")).
Proof.
  split.
  - destruct (main_without_logger
                (without_log_directory cleanup_run
                   (MkdirError "mkdir /var/log/ispc/: permission denied"))) as [Hdir _].
    apply (Hdir (MkdirError "mkdir /var/log/ispc/: permission denied")). reflexivity.
  - destruct (main_without_logger
                (without_log_file cleanup_run (Errorf "open sink: permission denied")))
      as [_ Hbuild].
    apply (Hbuild (Errorf "open sink: permission denied")); reflexivity.
Defined.

(** X15: every way [main] can end.  It returns (exit status 0), exits
    with status 1, or panics; and a panic is that of [zap.Must] or one of
    the two index panics of [getZoneInfo], never a nil zone record or an
    argument out of range. *)
Theorem main_outcomes w :
  match (main w).1 with
  | Returns _ => True
  | Exits c => c = 1
  | Panics p => (∃ e, p = MustFailed e)
                ∨ p = IndexOutOfRange (-1) 2 ∨ p = IndexOutOfRange 0 0
  end.
Proof.
  destruct (createLogger_outcomes w) as [_ Hout].
  pose proof (main_logger_failed w) as Hfail.
  destruct (createLogger w) as [[lg|p|c] w1] eqn:Hlog; simpl in *;
    [|rewrite Hfail; simpl; by left|by rewrite Hfail].
  destruct (valid_args (Args w)) eqn:Hvalid.
  2:{ by destruct (main_invalid w lg w1 Hvalid Hlog) as (msg & fs & ->). }
  destruct (valid_args_shape _ Hvalid) as (prog & action & domain & rest & HArgs).
  rewrite (main_steps w prog action domain rest lg w1 HArgs Hvalid Hlog).
  destruct (login_trace lg w1) as (sid & err & w2 & -> & _).
  destruct err as [e|]; [done|].
  pose proof (getZoneInfo_outcomes lg sid domain w2) as Hzone.
  destruct (getZoneInfo lg sid domain w2) as [[[[z|] [e|]]|p|c] w3]; simpl in *;
    try done; [|by right].
  destruct (String.eqb action "present") eqn:Hpresent.
  - destruct rest as [|value rest'].
    { rewrite HArgs in Hvalid. unfold valid_args in Hvalid.
      rewrite Hpresent in Hvalid. done. }
    destruct (addTxt_trace lg sid (ClientId z) (ServerID z) (ID z) domain value w3)
      as (id & err & w4 & req & -> & _). by destruct err.
  - destruct (String.eqb action "cleanup"); [|done].
    destruct (removeTxt_quiet sid domain w3) as (_ & [err Hret] & _).
    destruct (removeTxt sid domain w3) as [o w4]. simpl in Hret. subst o.
    by destruct err.
Qed.

(** The state in which [main] reaches zone resolution. *)
Lemma main_reaches_login w lg w1 :
  createLogger w = (Returns lg, w1) →
  ∃ sid err w2, login lg w1 = (Returns (sid, err), w2)
    ∧ sent w2 = sent w ++ [login_request w] ∧ api w2 = api w.
Proof.
  intros Hlog. destruct (createLogger_trace w) as [Hs0 Hf0]. rewrite Hlog in Hs0, Hf0.
  simpl in Hs0, Hf0.
  destruct (login_trace lg w1) as (sid & err & w2 & Hlogin & Hf1 & _ & Hs1).
  exists sid, err, w2. split_and!; [done| |].
  - by rewrite Hs1, Hs0, (login_request_frame _ _ Hf0).
  - rewrite (api_frame _ _ Hf1). by apply api_frame.
Qed.

(** X16: whatever the command line and the backend, the requests of one
    run are an initial part of login, zone lookup, account-ID lookup, add,
    or of login, zone lookup, account-ID lookup, TXT lookup, delete: at
    most five requests, each endpoint at most once, the login first. *)
Theorem main_request_order w :
  ∃ l, sent (main w).2 = sent w ++ l
    ∧ (url <$> l `prefix_of`
         (api w <$> authentication ++ zone_resolution ++ record_creation)
       ∨ url <$> l `prefix_of`
           (api w <$> authentication ++ zone_resolution ++ record_removal)).
Proof.
  destruct (createLogger_trace w) as [Hs0 _].
  pose proof (main_logger_failed w) as Hfail.
  destruct (createLogger w) as [[lg|p|c] w1] eqn:Hlog; simpl in *;
    [|rewrite Hfail; exists []; rewrite app_nil_r; split; [done|left; apply prefix_nil]..].
  destruct (valid_args (Args w)) eqn:Hvalid.
  2:{ destruct (main_invalid w lg w1 Hvalid Hlog) as (msg & fs & ->). simpl.
      exists []. rewrite app_nil_r. split; [done|left; apply prefix_nil]. }
  destruct (valid_args_shape _ Hvalid) as (prog & action & domain & rest & HArgs).
  rewrite (main_steps w prog action domain rest lg w1 HArgs Hvalid Hlog).
  destruct (main_reaches_login w lg w1 Hlog) as (sid & err & w2 & -> & Hs1 & Hapi).
  destruct err as [e|]; simpl.
  { exists [login_request w]. split; [done|]. left. by eexists. }
  destruct (getZoneInfo_trace lg sid domain w2) as (l & Hs2 & Hf2 & _ & Hpre & Hfull).
  assert (api (getZoneInfo lg sid domain w2).2 = api w) as Hapi3
    by (rewrite (api_frame _ _ Hf2); done).
  rewrite Hapi, Hs1, <- app_assoc in *. clear Hf2.
  apply (prefix_cons (api w "?login")) in Hpre.
  destruct (getZoneInfo lg sid domain w2) as [[[zi [e|]]|p|c] w3]; simpl in *.
  1,3,4: exists (login_request w :: l); split; [done|];
         left; etrans; [exact Hpre|by eexists].
  destruct (Hfull zi eq_refl) as [Hl [z ->]].
  destruct (String.eqb action "present") eqn:Hpresent.
  - destruct rest as [|value rest'].
    { exists (login_request w :: l). split; [done|]. left. etrans; [exact Hpre|by eexists]. }
    destruct (addTxt_trace lg sid (ClientId z) (ServerID z) (ID z) domain value w3)
      as (id & err & w4 & req & -> & _ & Hs4 & Hurl & _).
    exists (login_request w :: l ++ [req]).
    assert (sent w4 = sent w ++ login_request w :: l ++ [req]) as Hsent
      by (by rewrite Hs4, Hs2, <- !app_assoc).
    split; [by destruct err|]. left.
    rewrite fmap_cons, fmap_app, Hl. simpl. by rewrite Hurl, Hapi3.
  - destruct (String.eqb action "cleanup").
    2:{ exists (login_request w :: l). split; [done|].
        left. etrans; [exact Hpre|by eexists]. }
    destruct (removeTxt_trace sid domain w3) as (k & Hs5 & _ & Hpre5 & _).
    exists (login_request w :: l ++ lookup_request w3 sid domain :: k).
    assert (sent (removeTxt sid domain w3).2
            = sent w ++ login_request w :: l ++ lookup_request w3 sid domain :: k) as Hsent
      by (by rewrite Hs5, Hs2, <- !app_assoc).
    split.
    + by destruct (removeTxt sid domain w3) as [[[e|]|p|c] w4].
    + right. rewrite fmap_cons, fmap_app, fmap_cons, Hl. simpl. rewrite Hapi3 in *.
      do 4 apply prefix_cons. exact Hpre5.
Qed.

Lemma valid_args_present prog domain value rest :
  domain ≠ "" → valid_args (prog :: "present" :: domain :: value :: rest) = true.
Proof.
  intros Hd. unfold valid_args. rewrite (eqb_false _ _ Hd).
  assert ((len (prog :: "present" :: domain :: value :: rest) <? 4) = false) as ->; [|done].
  rewrite !len_cons. pose proof (len_nonneg rest). lia.
Qed.






(** X19: every request that [main] sends after the login carries, as
    [session_id], the session ID that [login] returned. *)
Theorem main_uses_session w lg w1 sid err w2 :
  valid_args (Args w) = true →
  createLogger w = (Returns lg, w1) → login lg w1 = (Returns (sid, err), w2) →
  ∃ l, sent (main w).2 = sent w2 ++ l
    ∧ ∀ req, req ∈ l → top req "session_id" = Some (JString sid).
Proof.
  intros Hvalid Hlog Hlogin.
  destruct (valid_args_shape _ Hvalid) as (prog & action & domain & rest & HArgs).
  rewrite (main_steps w prog action domain rest lg w1 HArgs Hvalid Hlog), Hlogin.
  destruct err as [e|]; simpl.
  { exists []. rewrite app_nil_r. split; [done|by intros ? ?%elem_of_nil]. }
  destruct (getZoneInfo_quiet lg sid domain w2) as (_ & l & Hs2 & Hl).
  destruct (getZoneInfo lg sid domain w2) as [[[zi [e|]]|p|c] w3]; simpl in *;
    try (by exists l).
  destruct (String.eqb action "present").
  - destruct rest as [|value rest']; [by exists l|].
    destruct zi as [z|]; [|by exists l].
    destruct (addTxt_quiet lg sid (ClientId z) (ServerID z) (ID z) domain value w3)
      as (_ & req & Hs4 & Hsid & _).
    exists (l ++ [req]). split.
    + destruct (addTxt lg sid (ClientId z) (ServerID z) (ID z) domain value w3)
        as [[[id [e|]]|p|c] w4]; simpl in *; by rewrite Hs4, Hs2, <- app_assoc.
    + intros r [Hin| ->%list_elem_of_singleton]%elem_of_app; [by apply Hl|done].
  - destruct (String.eqb action "cleanup"); [|by exists l].
    destruct (removeTxt_quiet sid domain w3) as (_ & _ & k & Hs5 & Hk).
    exists (l ++ k). split.
    + destruct (removeTxt sid domain w3) as [[[e|]|p|c] w4]; simpl in *;
        by rewrite Hs5, Hs2, <- app_assoc.
    + intros r [Hin|Hin]%elem_of_app; [by apply Hl|by apply Hk].
Qed.

Lemma main_uses_session_witness :
  ∃ l, sent (main cleanup_run).2 = [login_request cleanup_run] ++ l
    ∧ length l = 4%nat
    ∧ ∀ req, req ∈ l → top req "session_id" = Some (JString "SESSION").
Proof.
  destruct (main_uses_session cleanup_run the_logger (createLogger cleanup_run).2
              "SESSION" None (login the_logger (createLogger cleanup_run).2).2)
    as (l & Hsent & Hsid); [vm_compute; reflexivity..|].
  exists l. split_and!; [exact Hsent| |exact Hsid].
  vm_compute in Hsent. by simplify_eq.
Defined.

(** X20: on [present], once zone resolution has returned a zone record,
    [main] sends one more request: the add request, whose zone, server and
    client are those of the record, whose name and data are the domain and
    the value of the command line, under the session of the login. *)
Theorem main_present_uses_resolved_zone w prog domain value rest lg w1 sid w2 z w3 :
  Args w = prog :: "present" :: domain :: value :: rest → domain ≠ "" →
  createLogger w = (Returns lg, w1) → login lg w1 = (Returns (sid, None), w2) →
  getZoneInfo lg sid domain w2 = (Returns (Some z, None), w3) →
  ∃ req, sent (main w).2 = sent w3 ++ [req]
    ∧ url req = api w "?dns_txt_add"
    ∧ top req "session_id" = Some (JString sid)
    ∧ top req "client_id" = Some (JInt (ClientId z))
    ∧ param req "server_id" = Some (JString (ServerID z))
    ∧ param req "zone" = Some (JString (ID z))
    ∧ param req "name" = Some (JString domain)
    ∧ param req "data" = Some (JString value).
Proof.
  intros HArgs Hd Hlog Hlogin Hzone.
  assert (valid_args (Args w) = true) as Hvalid
    by (rewrite HArgs; by apply valid_args_present).
  rewrite (main_steps w prog "present" domain (value :: rest) lg w1 HArgs Hvalid Hlog).
  rewrite Hlogin, Hzone. simpl.
  destruct (main_reaches_login w lg w1 Hlog) as (sid' & err' & w2' & Hlogin' & _ & Hapi).
  rewrite Hlogin in Hlogin'. injection Hlogin' as <- <- <-.
  destruct (getZoneInfo_trace lg sid domain w2) as (_ & _ & Hf2 & _).
  rewrite Hzone in Hf2. simpl in Hf2.
  destruct (addTxt_trace lg sid (ClientId z) (ServerID z) (ID z) domain value w3)
    as (id & err & w4 & req & Hadd & _ & Hs4 & Hurl & Hname & _ & Hdata).
  destruct (addTxt_quiet lg sid (ClientId z) (ServerID z) (ID z) domain value w3)
    as (_ & req' & Hs4' & Hsid & Hclient & Hserver & Hzid).
  rewrite Hadd in Hs4'. simpl in Hs4'. rewrite Hs4 in Hs4'.
  apply app_inv_head in Hs4'. injection Hs4' as <-.
  exists req. rewrite Hadd.
  split; [by destruct err|]. split_and!; try done.
  by rewrite Hurl, (api_frame _ _ Hf2), Hapi.
Qed.

Lemma main_present_uses_resolved_zone_witness :
  ∃ req, last (sent (main present_run).2) = Some req
    ∧ top req "client_id" = Some (JInt 42)
    ∧ param req "server_id" = Some (JString "S1")
    ∧ param req "zone" = Some (JString "Z1")
    ∧ param req "name" = Some (JString "acme.test.example.org.")
    ∧ param req "data" = Some (JString "abc123").
Proof.
  destruct (main_present_uses_resolved_zone present_run "dnschallenge"
              "acme.test.example.org." "abc123" []
              the_logger (createLogger present_run).2 "SESSION"
              (login the_logger (createLogger present_run).2).2
              {| ID := "Z1"; ServerID := "S1"; SysUserID := "U1"; ClientId := 42 |}
              (getZoneInfo the_logger "SESSION" "acme.test.example.org."
                 (login the_logger (createLogger present_run).2).2).2)
    as (req & Hsent & _ & _ & Hclient & Hserver & Hzone & Hname & Hdata);
    [reflexivity|discriminate|vm_compute; reflexivity..|].
  exists req. rewrite Hsent, last_snoc. by split_and!.
Defined.

(** X21: a step that returns an error ends the run: [main] exits with
    status 1, the last log entry is a fatal entry that holds the error, and
    no request follows the failed step. *)
Theorem main_failed_step_is_fatal w prog action domain rest lg w1 :
  Args w = prog :: action :: domain :: rest → valid_args (Args w) = true →
  createLogger w = (Returns lg, w1) →
  (∀ sid e w2, login lg w1 = (Returns (sid, Some e), w2) →
     (main w).1 = Exits 1 ∧ sent (main w).2 = sent w2
     ∧ last (logged (main w).2) = Some (fatal_entry "Failed to login" e))
  ∧ (∀ sid w2 zi e w3,
       login lg w1 = (Returns (sid, None), w2) →
       getZoneInfo lg sid domain w2 = (Returns (zi, Some e), w3) →
       (main w).1 = Exits 1 ∧ sent (main w).2 = sent w3
       ∧ last (logged (main w).2) = Some (fatal_entry "Failed to get zone info" e))
  ∧ (∀ sid w2 z w3 value rest' id e w4,
       action = "present" → rest = value :: rest' →
       login lg w1 = (Returns (sid, None), w2) →
       getZoneInfo lg sid domain w2 = (Returns (Some z, None), w3) →
       addTxt lg sid (ClientId z) (ServerID z) (ID z) domain value w3
         = (Returns (id, Some e), w4) →
       (main w).1 = Exits 1 ∧ sent (main w).2 = sent w4
       ∧ last (logged (main w).2) = Some (fatal_entry "Failed to add record" e))
  ∧ (∀ sid w2 zi w3 e w4,
       action = "cleanup" →
       login lg w1 = (Returns (sid, None), w2) →
       getZoneInfo lg sid domain w2 = (Returns (zi, None), w3) →
       removeTxt sid domain w3 = (Returns (Some e), w4) →
       (main w).1 = Exits 1 ∧ sent (main w).2 = sent w4
       ∧ last (logged (main w).2) = Some (fatal_entry "Failed to remove record" e)).
Proof.
  intros HArgs Hvalid Hlog.
  rewrite (main_steps w prog action domain rest lg w1 HArgs Hvalid Hlog).
  split_and!.
  - intros sid e w2 ->. simpl. by rewrite last_snoc.
  - intros sid w2 zi e w3 -> ->. simpl. by rewrite last_snoc.
  - intros sid w2 z w3 value rest' id e w4 -> -> -> -> ->. simpl. by rewrite last_snoc.
  - intros sid w2 zi w3 e w4 -> -> -> ->. simpl. by rewrite last_snoc.
Qed.

Lemma main_failed_step_is_fatal_witness :
  (main login_refused).1 = Exits 1
  ∧ length (sent (main login_refused).2) = 1%nat
  ∧ last (logged (main login_refused).2)
    = Some (fatal_entry "Failed to login" UnmarshalTypeError).
Proof.
  destruct (main_failed_step_is_fatal login_refused "dnschallenge" "cleanup"
              "acme.test.example.org." [] the_logger (createLogger login_refused).2)
    as (Hlogin & _); [vm_compute; reflexivity..|].
  destruct (Hlogin "" UnmarshalTypeError
              (login the_logger (createLogger login_refused).2).2)
    as (Hexit & Hsent & Hlast); [vm_compute; reflexivity|].
  split_and!; [exact Hexit| |exact Hlast].
  rewrite Hsent. vm_compute. reflexivity.
Defined.

Lemma main_present_adds_record_witness :
  ∃ l, sent (main present_run).2 = sent present_run ++ l
       ∧ url <$> l = api present_run <$> authentication ++ zone_resolution ++ record_creation.
Proof.
  destruct (main_present_adds_record present_run "dnschallenge" "acme.test.example.org."
              "abc123" []) as (l & Hsent & _ & Hfull & _); [reflexivity|discriminate|].
  exists l. split; [exact Hsent|]. apply Hfull. vm_compute. reflexivity.
Defined.

(** ** The shape of the login answer *)

(** A member named [response], in any letter case, whose value is neither
    a string nor [null] makes the decoding of a [loginResponse] fail. *)
Lemma loginResponse_response_must_be_string ms k v acc :
  (k, v) ∈ ms → field_is k "response" = true →
  (∀ s, v ≠ JString s) → v ≠ JNull →
  decode_members loginResponse_field acc ms = DecodeError UnmarshalTypeError.
Proof.
  intros Hin Hk Hstr Hnull. revert acc.
  induction ms as [|[k' v'] ms IH]; intros acc; [by apply elem_of_nil in Hin|].
  simpl. apply elem_of_cons in Hin as [[= <- <-]|Hin].
  - unfold loginResponse_field at 1.
    assert (field_is k "code" = false) as ->.
    { unfold field_is in *. apply String.eqb_eq in Hk. rewrite Hk. reflexivity. }
    rewrite Hk. destruct v as [| | | |s| |]; simpl; try done. by destruct (Hstr s).
  - destruct (loginResponse_field acc k' v') as [acc'|e] eqn:Hhead; simpl; [by apply IH|].
    unfold loginResponse_field in Hhead.
    repeat case_match; simplify_eq; destruct v'; simpl in *; by simplify_eq.
Qed.

(** X25: a login answer whose body is a JSON object with a [response]
    member that is neither a string nor [null] (the panel answers a
    refused login with [false]) makes [login] return the decoding error and
    an empty session, whatever the [code] and the status. *)
Theorem login_response_must_be_string lg w resp ms k v :
  backend w (sent w) (login_request w) = inl resp →
  Body resp = Some (JObject ms) →
  (k, v) ∈ ms → field_is k "response" = true →
  (∀ s, v ≠ JString s) → v ≠ JNull →
  (login lg w).1 = Returns ("", Some UnmarshalTypeError).
Proof.
  intros Hreply Hbody Hin Hk Hstr Hnull.
  rewrite login_result, Hreply, Hbody. simpl.
  by rewrite (loginResponse_response_must_be_string ms k v).
Qed.

Lemma login_response_must_be_string_witness :
  (login the_logger login_refused).1 = Returns ("", Some UnmarshalTypeError).
Proof.
  apply (login_response_must_be_string the_logger login_refused
           {| StatusCode := 200; Status := "200 OK";
              Body := Some (JObject [("code", JString "login_failed");
                                     ("message", JString "denied");
                                     ("response", JBool false)]) |}
           [("code", JString "login_failed"); ("message", JString "denied");
            ("response", JBool false)]
           "response" (JBool false));
    [vm_compute; reflexivity|reflexivity| |reflexivity|discriminate|discriminate].
  apply elem_of_cons. right. apply elem_of_cons. right. apply elem_of_cons. by left.
Defined.
